(** * Budget optimizer and adstock components of pymc-marketing

    A shallow embedding of
    - [pymc_marketing/mmm/budget_optimizer.py] ([BudgetOptimizer.objective],
      [BudgetOptimizer.allocate_budget]) and
    - [pymc_marketing/mmm/models/components/lagging.py]
      ([BaseFunction.initialize_model_config] and its three subclasses),
    followed by the properties the specification states about them.

    Conventions.
    - Python floats are modelled as rationals [Q]; numeric results are
      compared with [Qeq] ([==]).
    - A [dict] whose iteration order is observable ([self.parameters], the
      returned allocation) is an insertion-ordered association list
      ([PyDict]); a [dict] that is only looked up is a [gmap string _].
    - Exceptions are values of [exn]; fallible pure code lives in [result],
      code that also emits warnings or drives the solver lives in [M], a
      state-and-error monad over the list of observable events.
    - [scipy.optimize.minimize] and the two transformation classes are not
      part of the repository: they are parameters of the development. *)

From Stdlib Require Import QArith Qround Qabs Lqa.
From stdpp Require Import base option list gmap strings.

Local Open Scope string_scope.
Local Open Scope list_scope.

(** ** Exceptions and the two monads *)

Inductive exn : Type :=
| TypeError (msg : string)
| KeyError (key : string)
| IndexError
| ZeroDivisionError
| ValueError (msg : string)
| NotImplementedError (msg : string)
| Exception (msg : string).

Inductive result (A : Type) : Type :=
| Ok (a : A)
| Raise (e : exn).
Arguments Ok {A} a.
Arguments Raise {A} e.

#[global] Instance result_ret : MRet result := λ A a, Ok a.
#[global] Instance result_bind : MBind result := λ A B f m,
  match m with
  | Ok a => f a
  | Raise e => Raise e
  end.

(** Subscripting: [d[key]] on a dict raises [KeyError], [l[idx]] on a
    sequence raises [IndexError]. *)
Definition getitem {V : Type} (d : gmap string V) (key : string) : result V :=
  match d !! key with
  | Some v => Ok v
  | None => Raise (KeyError key)
  end.

Definition getindex {A : Type} (l : list A) (idx : nat) : result A :=
  match l !! idx with
  | Some v => Ok v
  | None => Raise IndexError
  end.

(** A [for] loop over a list that threads a state and stops at the first
    exception. *)
Fixpoint for_loop {S A : Type} (body : S → A → result S) (init : S)
    (l : list A) : result S :=
  match l with
  | [] => Ok init
  | a :: l' => s ← body init a; for_loop body s l'
  end.

(** [enumerate(iterable, start)]. *)
Fixpoint enumerate_from {A : Type} (start : nat) (l : list A) : list (nat * A) :=
  match l with
  | [] => []
  | a :: l' => (start, a) :: enumerate_from (S start) l'
  end.

Definition enumerate {A : Type} (l : list A) : list (nat * A) :=
  enumerate_from 0 l.

(** ** Insertion-ordered dictionaries with string keys *)

Module PyDict.

Definition t (V : Type) : Type := list (string * V).

Definition empty {V : Type} : t V := [].

Fixpoint get {V : Type} (d : t V) (key : string) : option V :=
  match d with
  | [] => None
  | (k, v) :: d' => if decide (k = key) then Some v else get d' key
  end.

(** [d[key] = v]: an existing key keeps its position, a new key goes
    last. *)
Fixpoint set {V : Type} (d : t V) (key : string) (v : V) : t V :=
  match d with
  | [] => [(key, v)]
  | (k, v') :: d' =>
      if decide (k = key) then (k, v) :: d' else (k, v') :: set d' key v
  end.

Definition keys {V : Type} (d : t V) : list string := d.*1.
Definition values {V : Type} (d : t V) : list V := d.*2.
Definition items {V : Type} (d : t V) : list (string * V) := d.

(** [{k: v for k, v in pairs}] *)
Definition of_pairs {V : Type} (pairs : list (string * V)) : t V :=
  foldl (λ d kv, set d kv.1 kv.2) empty pairs.

(** The invariant of a Python dict: no key occurs twice. *)
Definition wf {V : Type} (d : t V) : Prop := NoDup (keys d).

End PyDict.

(** ** numpy on one-dimensional arrays *)

Definition np_full (n : nat) (v : Q) : list Q := replicate n v.
Definition np_zeros (n : nat) : list Q := replicate n 0%Q.
Definition np_concatenate (arrays : list (list Q)) : list Q := concat arrays.
Definition np_sum (a : list Q) : Q := foldr Qplus 0%Q a.

(** ** The transformation classes (external collaborators)

    [function(x=..., **params).eval()] maps a series and keyword arguments
    to a series. The adstock additionally carries [l_max]. *)

Abbreviation kwargs := (gmap string Q).

Record Transformation : Type := {
  function : list Q → kwargs → list Q
}.

Record AdstockTransformation : Type := {
  adstock_transformation :> Transformation;
  l_max : nat
}.

Abbreviation SaturationTransformation := Transformation.

(** ** [BudgetOptimizer] *)

Abbreviation channel_params := (gmap string kwargs).

Record BudgetOptimizer : Type := {
  adstock : AdstockTransformation;
  saturation : SaturationTransformation;
  num_days : nat;
  parameters : PyDict.t channel_params;
  adstock_first : bool
}.

(** The body of the loop of [objective] (lines 81-98) for one entry of
    [enumerate(self.parameters.items())]: it returns the value added to
    [total_response]. *)
Definition channel_response (self : BudgetOptimizer) (budgets : list Q)
    (idx : nat) (params : channel_params) : result Q :=
  let '(first_transform, second_transform) :=
    if adstock_first self
    then (adstock_transformation (adstock self), saturation self)
    else (saturation self, adstock_transformation (adstock self)) in
  budget ← getindex budgets idx;
  first_params ←
    (if adstock_first self
     then getitem params "adstock_params"
     else getitem params "saturation_params");
  second_params ←
    (if adstock_first self
     then getitem params "saturation_params"
     else getitem params "adstock_params");
  let spend := np_full (num_days self) budget in
  let spend_extended :=
    np_concatenate [spend; np_zeros (l_max (adstock self))] in
  let transformed_spend :=
    function second_transform
      (function first_transform spend_extended first_params)
      second_params in
  mret (np_sum transformed_spend).

Definition objective (self : BudgetOptimizer) (budgets : list Q) : result Q :=
  total_response ←
    for_loop
      (λ total_response '(idx, (_channel, params)),
         r ← channel_response self budgets idx params;
         mret (total_response + r)%Q)
      0%Q
      (enumerate (PyDict.items (parameters self)));
  mret (- total_response)%Q.

(** ** Arguments of [allocate_budget]

    [budget_bounds] and [custom_constraints] are [None], a [dict], or some
    other Python object. *)

Inductive py_object : Type :=
| PyInt (n : Z)
| PyFloat (q : Q)
| PyStr (s : string)
| PyList (l : list Q).

Inductive optional_dict (D : Type) : Type :=
| PyNone
| PyDictObj (d : D)
| PyOther (o : py_object).
Arguments PyNone {D}.
Arguments PyDictObj {D} d.
Arguments PyOther {D} o.

(** Values of a constraint dictionary such as
    [{"type": "eq", "fun": lambda x: ...}]. *)
Inductive constraint_value : Type :=
| CStr (s : string)
| CFun (f : list Q → Q)
| CObj (o : py_object).

Abbreviation constraint_dict := (gmap string constraint_value).
Abbreviation bounds_dict := (gmap string (Q * Q)).

(** ** The solver interface ([scipy.optimize.minimize]) *)

Module OptimizeResult.
Record t : Type := {
  x : list Q;
  fun_ : Q;
  success : bool;
  message : string
}.
End OptimizeResult.

Module MinimizeCall.
Record t : Type := {
  x0 : list Q;
  bounds : list (Q * Q);
  constraints : constraint_dict;
  method : string;
  options : gmap string Q
}.
End MinimizeCall.

(** What a solver does with the objective it is handed: it asks for its
    value at points of its choice, any number of times, and then returns
    an [OptimizeResult] or raises. *)
Inductive solver_run : Type :=
| Finished (r : OptimizeResult.t)
| Failed (e : exn)
| Evaluate (point : list Q) (k : Q → solver_run).

(** ** Observable events and the monad of [allocate_budget] *)

Inductive event : Type :=
| Warning (msg : string)
| MinimizeCalled (call : MinimizeCall.t)
| ObjectiveEvaluated (point : list Q).

Definition M (A : Type) : Type := list event → result A * list event.

#[global] Instance M_ret : MRet M := λ A a log, (Ok a, log).
#[global] Instance M_bind : MBind M := λ A B f m log,
  match m log with
  | (Ok a, log') => f a log'
  | (Raise e, log') => (Raise e, log')
  end.

Definition emit (e : event) : M unit := λ log, (Ok tt, log ++ [e]).
Definition raise {A : Type} (e : exn) : M A := λ log, (Raise e, log).
Definition lift {A : Type} (r : result A) : M A := λ log, (r, log).

Definition warnings_warn (msg : string) : M unit := emit (Warning msg).

(** The solver runs against the objective: every evaluation is recorded,
    and an exception of the objective propagates through the solver. *)
Fixpoint drive (f : list Q → result Q) (run : solver_run)
    : M OptimizeResult.t :=
  match run with
  | Finished r => mret r
  | Failed e => raise e
  | Evaluate point k =>
      emit (ObjectiveEvaluated point);;
      v ← lift (f point);
      drive f (k v)
  end.

(** ** [BudgetOptimizer.allocate_budget] *)

Definition no_bounds_warning : string :=
  "No budget bounds provided. Using default bounds (0, total_budget) for each channel.".

Definition default_constraint_warning : string :=
  "Using default equaliy constraint: The sum of all budgets should be equal to the total budget.".

(** Lines 138-146. *)
Definition resolve_budget_bounds (self : BudgetOptimizer) (total_budget : Q)
    (budget_bounds : optional_dict bounds_dict) : M bounds_dict :=
  match budget_bounds with
  | PyNone =>
      let budget_bounds : bounds_dict :=
        foldl (λ d channel, <[channel := (0%Q, total_budget)]> d) ∅
          (PyDict.keys (parameters self)) in
      warnings_warn no_bounds_warning;;
      mret budget_bounds
  | PyDictObj d => mret d
  | PyOther _ => raise (TypeError "`budget_bounds` should be a dictionary.")
  end.

(** [{"type": "eq", "fun": lambda x: np.sum(x) - total_budget}] *)
Definition default_constraints (total_budget : Q) : constraint_dict :=
  <["fun" := CFun (λ x, np_sum x - total_budget)%Q]> {["type" := CStr "eq"]}.

(** Lines 148-158. *)
Definition resolve_constraints (total_budget : Q)
    (custom_constraints : optional_dict constraint_dict) : M constraint_dict :=
  match custom_constraints with
  | PyNone =>
      let constraints := default_constraints total_budget in
      warnings_warn default_constraint_warning;;
      mret constraints
  | PyDictObj d => mret d
  | PyOther _ =>
      raise (TypeError "`custom_constraints` should be a dictionary.")
  end.

(** [a // n] on floats. *)
Definition floordiv (a : Q) (n : nat) : result Q :=
  match n with
  | O => Raise ZeroDivisionError
  | S _ => Ok (inject_Z (Qfloor (a / inject_Z (Z.of_nat n))))
  end.

(** Lines 160-163. *)
Definition initial_guess (self : BudgetOptimizer) (total_budget : Q)
    : result (list Q) :=
  let num_channels := length (PyDict.keys (parameters self)) in
  share ← floordiv total_budget num_channels;
  mret (replicate num_channels share).

(** Lines 164-171. *)
Definition bounds_list (self : BudgetOptimizer) (total_budget : Q)
    (budget_bounds : bounds_dict) : list (Q * Q) :=
  (λ channel,
     match budget_bounds !! channel with
     | Some b => (b.1, b.2)
     | None => (0%Q, total_budget)
     end) <$> PyDict.keys (parameters self).

Definition solver_options : gmap string Q :=
  <["maxiter" := 1000%Q]> {["ftol" := (1 # 1000000000)%Q]}.

(** Lines 138-179: everything up to the arguments of [minimize]. *)
Definition resolve_problem (self : BudgetOptimizer) (total_budget : Q)
    (budget_bounds : optional_dict bounds_dict)
    (custom_constraints : optional_dict constraint_dict) : M MinimizeCall.t :=
  budget_bounds ← resolve_budget_bounds self total_budget budget_bounds;
  constraints ← resolve_constraints total_budget custom_constraints;
  initial_guess ← lift (initial_guess self total_budget);
  let bounds := bounds_list self total_budget budget_bounds in
  mret {| MinimizeCall.x0 := initial_guess;
          MinimizeCall.bounds := bounds;
          MinimizeCall.constraints := constraints;
          MinimizeCall.method := "SLSQP";
          MinimizeCall.options := solver_options |}.

(** Lines 181-184. *)
Definition decode_result (self : BudgetOptimizer) (x : list Q) : PyDict.t Q :=
  PyDict.of_pairs (zip (PyDict.keys (parameters self)) x).

(** Lines 180-187. *)
Definition return_result (self : BudgetOptimizer) (result : OptimizeResult.t)
    : M (PyDict.t Q * Q) :=
  if OptimizeResult.success result then
    let optimal_budgets := decode_result self (OptimizeResult.x result) in
    mret (optimal_budgets, (- OptimizeResult.fun_ result)%Q)
  else
    raise (Exception ("Optimization failed: " +:+ OptimizeResult.message result)).

Section allocate_budget.

(** [scipy.optimize.minimize], seen through the evaluations it requests. *)
Variable minimize : MinimizeCall.t → solver_run.

(** Lines 172-179. *)
Definition call_minimize (self : BudgetOptimizer) (call : MinimizeCall.t)
    : M OptimizeResult.t :=
  emit (MinimizeCalled call);;
  drive (objective self) (minimize call).

Definition allocate_budget (self : BudgetOptimizer) (total_budget : Q)
    (budget_bounds : optional_dict bounds_dict)
    (custom_constraints : optional_dict constraint_dict)
    : M (PyDict.t Q * Q) :=
  call ← resolve_problem self total_budget budget_bounds custom_constraints;
  result ← call_minimize self call;
  return_result self result.

End allocate_budget.

(** ** Adstock components ([models/components/lagging.py]) *)

(** Values found in a model configuration. *)
#[warnings="-register-all"] Inductive config_value : Type :=
| VStr (s : string)
| VInt (n : Z)
| VDict (d : gmap string config_value).

Abbreviation config_dict := (gmap string config_value).

(** [key in d] *)
Definition contains {V : Type} (d : gmap string V) (key : string) : bool :=
  match d !! key with
  | Some _ => true
  | None => false
  end.

(** [{**d1, **d2}]: the entries of [d2] win. *)
Definition dict_merge {V : Type} (d1 d2 : gmap string V) : gmap string V :=
  d2 ∪ d1.

Inductive lagging_class : Type :=
| BaseFunction
| GeometricAdstockComponent
| WeibullPDFAdstockComponent
| WeibullCDFAdstockComponent.

Definition REQUIRED_KEYS (cls : lagging_class) : list string :=
  match cls with
  | BaseFunction => []
  | GeometricAdstockComponent => ["adstock_alpha"]
  | WeibullPDFAdstockComponent => ["adstock_lambda"; "adstock_shape"]
  | WeibullCDFAdstockComponent => ["adstock_lambda"; "adstock_shape"]
  end.

(** [{"dist": "Beta", "kwargs": {"alpha": 1, "beta": 3}}] *)
Definition beta_1_3 : config_value :=
  VDict (<["kwargs" := VDict (<["beta" := VInt 3]> {["alpha" := VInt 1]})]>
           {["dist" := VStr "Beta"]}).

Definition _default_lagging_config (cls : lagging_class) : result config_dict :=
  match cls with
  | BaseFunction =>
      Raise (NotImplementedError "Subclasses should implement this method.")
  | GeometricAdstockComponent =>
      Ok {["adstock_alpha" := beta_1_3]}
  | WeibullPDFAdstockComponent =>
      Ok (<["adstock_shape" := beta_1_3]> {["adstock_lambda" := beta_1_3]})
  | WeibullCDFAdstockComponent =>
      Ok (<["adstock_shape" := beta_1_3]> {["adstock_lambda" := beta_1_3]})
  end.

Definition initialize_model_config (cls : lagging_class)
    (model_config : option config_dict) : result config_dict :=
  match model_config with
  | Some model_config =>
      if negb (forallb (contains model_config) (REQUIRED_KEYS cls)) then
        default ← _default_lagging_config cls;
        mret (dict_merge model_config default)
      else
        mret model_config
  | None => _default_lagging_config cls
  end.

(** The three adstock components. *)
Definition adstock_component (cls : lagging_class) : Prop :=
  cls = GeometricAdstockComponent ∨ cls = WeibullPDFAdstockComponent
  ∨ cls = WeibullCDFAdstockComponent.

(** ** The objective as the specification words it (sections 4.3, 4.4) *)

Definition constant_series (self : BudgetOptimizer) (spend : Q) : list Q :=
  replicate (num_days self) spend ++ replicate (l_max (adstock self)) 0%Q.

Definition TransformationPipeline (self : BudgetOptimizer)
    (adstock_params saturation_params : kwargs) (series : list Q) : list Q :=
  if adstock_first self
  then function (saturation self)
         (function (adstock self) series adstock_params) saturation_params
  else function (adstock self)
         (function (saturation self) series saturation_params) adstock_params.

Definition sum_over {A : Type} (f : A → Q) (l : list A) : Q :=
  foldr (λ a acc, f a + acc)%Q 0%Q l.

Definition channel_total (self : BudgetOptimizer)
    (channel : (kwargs * kwargs) * Q) : Q :=
  sum_over id
    (TransformationPipeline self channel.1.1 channel.1.2
       (constant_series self channel.2)).

Definition total_response (self : BudgetOptimizer)
    (subsets : list (kwargs * kwargs)) (budgets : list Q) : Q :=
  sum_over (channel_total self) (zip subsets budgets).

(** The two named parameter subsets of a channel. *)
Definition channel_subsets (params : channel_params) : option (kwargs * kwargs) :=
  a ← params !! "adstock_params";
  s ← params !! "saturation_params";
  Some (a, s).

(** ** Vocabulary of the statements *)

Definition num_channels (self : BudgetOptimizer) : nat :=
  length (PyDict.keys (parameters self)).

(** The bounds the specification resolves for one channel (section 4.5). *)
Definition resolved_bounds (total_budget : Q)
    (budget_bounds : optional_dict bounds_dict) (channel : string) : Q * Q :=
  match budget_bounds with
  | PyDictObj d => default (0%Q, total_budget) (d !! channel)
  | _ => (0%Q, total_budget)
  end.

Definition resolved_constraints (total_budget : Q)
    (custom_constraints : optional_dict constraint_dict) : constraint_dict :=
  match custom_constraints with
  | PyDictObj d => d
  | _ => default_constraints total_budget
  end.

Definition supplied {D : Type} (arg : optional_dict D) : bool :=
  match arg with
  | PyNone => false
  | _ => true
  end.

Definition non_mapping {D : Type} (arg : optional_dict D) : Prop :=
  match arg with
  | PyOther _ => True
  | _ => False
  end.

Definition well_typed {D : Type} (arg : optional_dict D) : Prop :=
  match arg with
  | PyOther _ => False
  | _ => True
  end.

(** The warnings a call is expected to emit, in order. *)
Definition expected_warnings {D1 D2 : Type} (budget_bounds : optional_dict D1)
    (custom_constraints : optional_dict D2) : list event :=
  (if supplied budget_bounds then [] else [Warning no_bounds_warning])
  ++ (if supplied custom_constraints then []
      else [Warning default_constraint_warning]).

Definition is_warning (e : event) : Prop :=
  match e with
  | Warning _ => True
  | _ => False
  end.

Definition is_evaluation (e : event) : Prop :=
  match e with
  | ObjectiveEvaluated _ => True
  | _ => False
  end.

(** A call of the solver with the method and the options that
    [allocate_budget] writes out. *)
Definition uses_fixed_options (e : event) : Prop :=
  match e with
  | MinimizeCalled call =>
      MinimizeCall.method call = "SLSQP"
      ∧ MinimizeCall.options call = solver_options
  | _ => True
  end.

(** A call of the solver whose initial guess is [guess]. *)
Definition starts_from (guess : list Q) (e : event) : Prop :=
  match e with
  | MinimizeCalled call => MinimizeCall.x0 call = guess
  | _ => True
  end.

(** A call of the solver that is given [limit] as its iteration cap. *)
Definition called_with_maxiter (limit : Q) (e : event) : Prop :=
  match e with
  | MinimizeCalled call => MinimizeCall.options call !! "maxiter" = Some limit
  | _ => False
  end.

(** The residual of an equality constraint [{"type": "eq", "fun": f}] at
    [x], when the dictionary is one. *)
Definition eq_constraint_residual (constraints : constraint_dict) (x : list Q)
    : option Q :=
  match constraints !! "type", constraints !! "fun" with
  | Some (CStr kind), Some (CFun f) =>
      if decide (kind = "eq") then Some (f x) else None
  | _, _ => None
  end.

Definition within_bounds (x : list Q) (bounds : list (Q * Q)) : Prop :=
  Forall2 (λ v b, b.1 <= v ∧ v <= b.2)%Q x bounds.

(** What SLSQP promises of a result it reports as successful, for the
    problem it was handed: a point of the shape of [x0], inside the bounds,
    with the equality constraint met up to [tol]. *)
Definition slsqp_feasible (tol : Q) (call : MinimizeCall.t)
    (r : OptimizeResult.t) : Prop :=
  length (OptimizeResult.x r) = length (MinimizeCall.x0 call)
  ∧ within_bounds (OptimizeResult.x r) (MinimizeCall.bounds call)
  ∧ ∀ c, eq_constraint_residual (MinimizeCall.constraints call)
            (OptimizeResult.x r) = Some c → (Qabs c <= tol)%Q.

(** Series up to [==], and the two hypotheses on the transforms. *)
Definition series_eq (a b : list Q) : Prop := Forall2 Qeq a b.
Definition all_zero (a : list Q) : Prop := Forall (λ v, v == 0)%Q a.

Record linear (f : list Q → list Q) : Prop := {
  linear_proper : ∀ a b, series_eq a b → series_eq (f a) (f b);
  linear_add : ∀ a b, length a = length b →
    series_eq (f (zip_with Qplus a b)) (zip_with Qplus (f a) (f b));
  linear_scale : ∀ c a, series_eq (f (Qmult c <$> a)) (Qmult c <$> f a)
}.

Definition origin_pass_through (f : list Q → list Q) : Prop :=
  ∀ a, all_zero a → all_zero (f a).

(** ** A small concrete instance

    Two channels, a one-lag carry-over adstock, a Michaelis-Menten
    saturation, and a solver that evaluates the objective at its initial
    guess and accepts it exactly when it is feasible. *)

Module Example.

Fixpoint carry_over (alpha prev : Q) (x : list Q) : list Q :=
  match x with
  | [] => []
  | v :: x' => (v + alpha * prev)%Q :: carry_over alpha v x'
  end.

Definition carry_over_adstock : AdstockTransformation :=
  {| adstock_transformation :=
       {| function := λ x kw, carry_over (default 0%Q (kw !! "alpha")) 0%Q x |};
     l_max := 1 |}.

Definition michaelis_menten : SaturationTransformation :=
  {| function := λ x kw,
       (λ v, default 0%Q (kw !! "alpha") * v
             / (default 0%Q (kw !! "lam") + v))%Q <$> x |}.

Definition channel (decay alpha lam : Q) : channel_params :=
  <["saturation_params" := <["lam" := lam]> {["alpha" := alpha]}]>
    {["adstock_params" := {["alpha" := decay]}]}.

Definition optimizer : BudgetOptimizer :=
  {| adstock := carry_over_adstock;
     saturation := michaelis_menten;
     num_days := 2;
     parameters := [("tv", channel (1 # 2) 3 1); ("radio", channel (1 # 4) 2 1)];
     adstock_first := true |}.

Definition subsets : list (kwargs * kwargs) :=
  [({["alpha" := 1 # 2]}, <["lam" := 1%Q]> {["alpha" := 3%Q]});
   ({["alpha" := 1 # 4]}, <["lam" := 1%Q]> {["alpha" := 2%Q]})].

Definition in_bounds (v : Q) (b : Q * Q) : bool :=
  Qle_bool b.1 v && Qle_bool v b.2.

Fixpoint all_in_bounds (x : list Q) (bounds : list (Q * Q)) : bool :=
  match x, bounds with
  | [], [] => true
  | v :: x', b :: bounds' => in_bounds v b && all_in_bounds x' bounds'
  | _, _ => false
  end.

Definition feasible (call : MinimizeCall.t) : bool :=
  all_in_bounds (MinimizeCall.x0 call) (MinimizeCall.bounds call)
  && match eq_constraint_residual (MinimizeCall.constraints call)
             (MinimizeCall.x0 call) with
     | Some c => Qeq_bool c 0
     | None => true
     end.

Definition minimize (call : MinimizeCall.t) : solver_run :=
  Evaluate (MinimizeCall.x0 call) (λ v,
    Finished {| OptimizeResult.x := MinimizeCall.x0 call;
                OptimizeResult.fun_ := v;
                OptimizeResult.success := feasible call;
                OptimizeResult.message :=
                  if feasible call then "Optimization terminated successfully"
                  else "Iteration limit reached" |}).

(** Bounds for one of the two channels only. *)
Definition tv_bounds : bounds_dict := {["tv" := (2%Q, 6%Q)]}.

(** A model configuration that misses [adstock_shape]. *)
Definition partial_config : config_dict :=
  {["adstock_lambda" := VInt 7]}.

(** A configuration with a key of the caller's own and no required key. *)
Definition tagged_config : config_dict := {["note" := VStr "weekly data"]}.

End Example.

(** ** Proof support *)

(** The body of the loop of [objective], as it is written there. *)
Local Abbreviation objective_body self budgets :=
  (λ (total_response : Q) '(idx, (_channel, params)),
     r ← channel_response self budgets idx params;
     mret (total_response + r)%Q).

(** Closed comparisons in [Q] and closed [NoDup] goals, by evaluation. *)
Ltac by_evaluation :=
  lazymatch goal with
  | |- PyDict.wf _ =>
      unfold PyDict.wf; apply (bool_decide_unpack _); vm_compute; exact I
  | |- _ => vm_compute; first [reflexivity | discriminate | intros; discriminate]
  end.

(** ** Further vocabulary *)

(** The key whose lookup fails first in an iteration of [objective]:
    [first_params] is read before [second_params]. *)
Definition first_missing_key (self : BudgetOptimizer) (params : channel_params)
    : option string :=
  let '(first_key, second_key) :=
    if adstock_first self
    then ("adstock_params", "saturation_params")
    else ("saturation_params", "adstock_params") in
  if contains params first_key then
    if contains params second_key then None else Some second_key
  else Some first_key.

(** The same optimizer with its channels renamed, in order. *)
Definition rename_channels (self : BudgetOptimizer) (names : list string)
    : BudgetOptimizer :=
  {| adstock := adstock self;
     saturation := saturation self;
     num_days := num_days self;
     parameters := zip names (PyDict.values (parameters self));
     adstock_first := adstock_first self |}.

(** The contribution of position [i], with the channel found by its
    position among the keys and its parameters found under that key. *)
Definition indexed_response (self : BudgetOptimizer) (budgets : list Q)
    (i : nat) : option Q :=
  channel ← PyDict.keys (parameters self) !! i;
  params ← PyDict.get (parameters self) channel;
  subsets ← channel_subsets params;
  spend ← budgets !! i;
  Some (channel_total self (subsets, spend)).

(** SLSQP's contract, as a property of the solver alone: whatever
    objective it is run against and whatever problem it is handed, a
    result it reports as successful is feasible for that problem up to
    [tol]. *)
Definition slsqp_contract (tol : Q) (minimize : MinimizeCall.t → solver_run)
    : Prop :=
  ∀ (f : list Q → result Q) (call : MinimizeCall.t) (log log' : list event)
    (r : OptimizeResult.t),
    drive f (minimize call) log = (Ok r, log') →
    OptimizeResult.success r = true →
    slsqp_feasible tol call r.

(** ** Instances of the adstock components

    [BaseFunction.__init__] and [_get_lagging_function] of
    [models/components/lagging.py]. [Model] stands for [pm.Model]. *)

Section lagging_instances.

Variable Model : Type.

Record lagging_function : Type := {
  lagging_cls : lagging_class;
  max_lagging : Z;
  model : option Model;
  model_config : config_dict
}.

(** [cls(max_lagging, model, model_config)]: every subclass forwards its
    arguments to [BaseFunction.__init__]. *)
Definition new_lagging_function (cls : lagging_class) (max_lagging : Z)
    (model : option Model) (model_config : option config_dict)
    : result lagging_function :=
  config ← initialize_model_config cls model_config;
  mret {| lagging_cls := cls;
          max_lagging := max_lagging;
          model := model;
          model_config := config |}.

Definition lagging_functions : gmap string lagging_class :=
  <["weibull_cdf" := WeibullCDFAdstockComponent]>
    (<["weibull_pdf" := WeibullPDFAdstockComponent]>
       {["geometric" := GeometricAdstockComponent]}).

Definition _get_lagging_function (name : string) (max_lagging : Z)
    (model : option Model) (model_config : option config_dict)
    : result lagging_function :=
  match lagging_functions !! name with
  | Some cls => new_lagging_function cls max_lagging model model_config
  | None =>
      Raise (ValueError ("Lagging function " +:+ name +:+ " not recognized."))
  end.

End lagging_instances.

(** [variable_mapping]; the base class has none. *)
Definition variable_mapping (cls : lagging_class) : option (gmap string string) :=
  match cls with
  | BaseFunction => None
  | GeometricAdstockComponent => Some {["alpha" := "adstock_alpha"]}
  | WeibullPDFAdstockComponent =>
      Some (<["k" := "adstock_shape"]> {["lam" := "adstock_lambda"]})
  | WeibullCDFAdstockComponent =>
      Some (<["k" := "adstock_shape"]> {["lam" := "adstock_lambda"]})
  end.

(** * Properties *)

(** ** Generic facts *)

Lemma getindex_drop {A : Type} (l : list A) (i : nat) (a : A) (rest : list A) :
  drop i l = a :: rest → getindex l i = Ok a ∧ drop (S i) l = rest.
Proof.
  intros Hd. unfold getindex.
  assert (l !! i = Some a) as ->.
  { rewrite <- (Nat.add_0_r i), <- lookup_drop, Hd. reflexivity. }
  split; [reflexivity|].
  replace (S i) with (i + 1) by lia.
  rewrite <- drop_drop, Hd. reflexivity.
Qed.

(** ** The objective (C1) *)

Lemma channel_response_total (self : BudgetOptimizer) (budgets : list Q)
    (idx : nat) (params : channel_params) (a s : kwargs) (budget : Q) :
  getindex budgets idx = Ok budget →
  channel_subsets params = Some (a, s) →
  channel_response self budgets idx params
  = Ok (channel_total self ((a, s), budget)).
Proof.
  intros Hb Hs. unfold channel_subsets in Hs.
  destruct (params !! "adstock_params") as [a'|] eqn:Ha; [|discriminate].
  destruct (params !! "saturation_params") as [s'|] eqn:Hs'; [|discriminate].
  simpl in Hs. injection Hs as -> ->.
  unfold channel_response, channel_total, TransformationPipeline,
    constant_series, getitem.
  rewrite Hb, Ha, Hs'.
  destruct (adstock_first self); simpl;
    unfold np_full, np_zeros; rewrite app_nil_r; reflexivity.
Qed.

Lemma objective_loop (self : BudgetOptimizer) (budgets : list Q) :
  ∀ (items : list (string * channel_params)) (subsets : list (kwargs * kwargs))
    (start : nat) (acc : Q),
    mapM channel_subsets items.*2 = Some subsets →
    length (drop start budgets) = length items →
    ∃ total : Q,
      for_loop (objective_body self budgets) acc (enumerate_from start items)
      = Ok total
      ∧ (total == acc + total_response self subsets (drop start budgets))%Q.
Proof.
  induction items as [|[channel params] items IH];
    intros subsets start acc Hsub Hlen.
  - exists acc. split; [reflexivity|].
    apply mapM_Some in Hsub. inversion Hsub; subst.
    unfold total_response. simpl. ring.
  - apply mapM_Some in Hsub. simpl in Hsub.
    inversion Hsub as [|? [a s] ? subsets' Hhd Htl]; subst.
    destruct (drop start budgets) as [|budget rest] eqn:Hd; [discriminate|].
    destruct (getindex_drop _ _ _ _ Hd) as [Hget Hrest].
    simpl in Hlen. injection Hlen as Hlen.
    destruct (IH subsets' (S start)
                (acc + channel_total self ((a, s), budget))%Q) as (total & Hrun & Htot).
    { apply mapM_Some. exact Htl. }
    { rewrite Hrest. exact Hlen. }
    exists total. split.
    + simpl. rewrite (channel_response_total _ _ _ _ a s budget Hget Hhd).
      simpl. exact Hrun.
    + rewrite Htot, Hrest. unfold total_response. simpl. ring.
Qed.

(** C1. With one spend per channel, and every channel carrying its
    [adstock_params] and [saturation_params], [objective] returns the
    negation of the sum over the channels of the time-sum of the pipeline
    applied to the constant series of [num_days] spends followed by
    [l_max] zeros. *)
Theorem objective_negated_total_response (self : BudgetOptimizer)
    (budgets : list Q) (subsets : list (kwargs * kwargs)) :
  length budgets = length (PyDict.keys (parameters self)) →
  mapM channel_subsets (PyDict.values (parameters self)) = Some subsets →
  ∃ v : Q, objective self budgets = Ok v
           ∧ (v == - total_response self subsets budgets)%Q.
Proof.
  intros Hlen Hsub.
  destruct (objective_loop self budgets (parameters self) subsets 0 0%Q Hsub)
    as (total & Hrun & Htot).
  { rewrite drop_0, Hlen. unfold PyDict.keys. apply length_fmap. }
  exists (- total)%Q. split.
  - unfold objective, enumerate, PyDict.items. rewrite Hrun. reflexivity.
  - rewrite Htot, drop_0. ring.
Qed.

Lemma objective_negated_total_response_witness :
  ∃ v : Q, objective Example.optimizer [1; 3]%Q = Ok v
           ∧ (v == - total_response Example.optimizer Example.subsets [1; 3])%Q.
Proof.
  apply objective_negated_total_response.
  - reflexivity.
  - vm_compute. reflexivity.
Defined.

(** ** Model configuration of the adstock components (C10) *)

Lemma contains_is_Some {V : Type} (d : gmap string V) (key : string) :
  contains d key = true ↔ is_Some (d !! key).
Proof.
  unfold contains. destruct (d !! key) as [v|].
  - split; [eauto | reflexivity].
  - split; [discriminate | intros [v Hv]; discriminate].
Qed.

Lemma forallb_contains {V : Type} (d : gmap string V) (required : list string) :
  forallb (contains d) required = true
  ↔ Forall (λ key, is_Some (d !! key)) required.
Proof.
  induction required as [|key required IH]; simpl.
  - split; [constructor | reflexivity].
  - rewrite andb_true_iff, contains_is_Some, IH, Forall_cons. reflexivity.
Qed.

Lemma default_config_has_required (cls : lagging_class) (config : config_dict) :
  _default_lagging_config cls = Ok config →
  Forall (λ key, is_Some (config !! key)) (REQUIRED_KEYS cls).
Proof.
  destruct cls; simpl; intros Hd; [discriminate| | |];
    injection Hd as <-; repeat constructor; eexists; reflexivity.
Qed.

Lemma adstock_component_has_default (cls : lagging_class) :
  adstock_component cls → ∃ config, _default_lagging_config cls = Ok config.
Proof. intros [-> | [-> | ->]]; eexists; reflexivity. Qed.

(** C10. For each of the three adstock components and every
    [model_config], [initialize_model_config] returns a dictionary that
    has every key of [REQUIRED_KEYS]; a [model_config] that has them all
    is returned unchanged; one that misses some takes the default value at
    every key of the default configuration. *)
Theorem initialize_model_config_required_keys (cls : lagging_class)
    (model_config : option config_dict) :
  adstock_component cls →
  ∃ config defaults : config_dict,
    initialize_model_config cls model_config = Ok config
    ∧ _default_lagging_config cls = Ok defaults
    ∧ Forall (λ key, is_Some (config !! key)) (REQUIRED_KEYS cls)
    ∧ (∀ supplied_config,
         model_config = Some supplied_config →
         Forall (λ key, is_Some (supplied_config !! key)) (REQUIRED_KEYS cls) →
         config = supplied_config)
    ∧ (∀ supplied_config,
         model_config = Some supplied_config →
         ¬ Forall (λ key, is_Some (supplied_config !! key)) (REQUIRED_KEYS cls) →
         ∀ key v, defaults !! key = Some v → config !! key = Some v).
Proof.
  intros Hcls.
  destruct (adstock_component_has_default cls Hcls) as [defaults Hdef].
  pose proof (default_config_has_required cls defaults Hdef) as Hreq.
  unfold initialize_model_config.
  destruct model_config as [mc|].
  - destruct (forallb (contains mc) (REQUIRED_KEYS cls)) eqn:Hall; simpl.
    + apply forallb_contains in Hall.
      exists mc, defaults. repeat split; try assumption.
      * intros mc' [= <-] _. reflexivity.
      * intros mc' [= <-] Hmiss. contradiction.
    + rewrite Hdef. simpl.
      exists (dict_merge mc defaults), defaults. repeat split; try assumption.
      * eapply Forall_impl; [exact Hreq|].
        intros key Hkey. unfold dict_merge. by apply lookup_union_is_Some; left.
      * intros mc' [= <-] Hhave. apply forallb_contains in Hhave. congruence.
      * intros mc' _ _ key v Hv. unfold dict_merge.
        by apply lookup_union_Some_l.
  - exists defaults, defaults. repeat split; try assumption.
    + intros mc' [=].
    + intros mc' [=].
Qed.

Lemma initialize_model_config_required_keys_witness :
  ∃ config defaults : config_dict,
    initialize_model_config WeibullPDFAdstockComponent
      (Some Example.partial_config) = Ok config
    ∧ _default_lagging_config WeibullPDFAdstockComponent = Ok defaults
    ∧ Forall (λ key, is_Some (config !! key))
        (REQUIRED_KEYS WeibullPDFAdstockComponent)
    ∧ (∀ supplied_config : config_dict,
         Some Example.partial_config = Some supplied_config →
         Forall (λ key, is_Some (supplied_config !! key))
           (REQUIRED_KEYS WeibullPDFAdstockComponent) →
         config = supplied_config)
    ∧ (∀ supplied_config : config_dict,
         Some Example.partial_config = Some supplied_config →
         ¬ Forall (λ key, is_Some (supplied_config !! key))
             (REQUIRED_KEYS WeibullPDFAdstockComponent) →
         ∀ key v, defaults !! key = Some v → config !! key = Some v).
Proof.
  apply initialize_model_config_required_keys.
  right. left. reflexivity.
Defined.

(** ** Running [allocate_budget] *)

Lemma M_bind_unfold {A B : Type} (m : M A) (f : A → M B) (log : list event) :
  (m ≫= f) log
  = match m log with
    | (Ok a, log') => f a log'
    | (Raise e, log') => (Raise e, log')
    end.
Proof. reflexivity. Qed.

Lemma allocate_budget_unfold (minimize : MinimizeCall.t → solver_run)
    (self : BudgetOptimizer) (total_budget : Q)
    (budget_bounds : optional_dict bounds_dict)
    (custom_constraints : optional_dict constraint_dict) (log : list event) :
  allocate_budget minimize self total_budget budget_bounds custom_constraints log
  = match resolve_problem self total_budget budget_bounds custom_constraints log with
    | (Ok call, log1) =>
        match call_minimize minimize self call log1 with
        | (Ok r, log2) => return_result self r log2
        | (Raise e, log2) => (Raise e, log2)
        end
    | (Raise e, log1) => (Raise e, log1)
    end.
Proof. reflexivity. Qed.

Lemma return_result_log (self : BudgetOptimizer) (r : OptimizeResult.t)
    (log : list event) :
  (return_result self r log).2 = log.
Proof. unfold return_result. destruct (OptimizeResult.success r); reflexivity. Qed.

Lemma drive_log (f : list Q → result Q) (run : solver_run) :
  ∀ log, ∃ evaluations,
    (drive f run log).2 = log ++ evaluations
    ∧ Forall is_evaluation evaluations.
Proof.
  induction run as [r|e|point k IH]; intros log.
  - exists []. split; [by rewrite app_nil_r | constructor].
  - exists []. split; [by rewrite app_nil_r | constructor].
  - change (drive f (Evaluate point k) log)
      with (match f point with
            | Ok v => drive f (k v) (log ++ [ObjectiveEvaluated point])
            | Raise e => (Raise e, log ++ [ObjectiveEvaluated point])
            end).
    destruct (f point) as [v|e].
    + destruct (IH v (log ++ [ObjectiveEvaluated point])) as (evs & Hlog & Hevs).
      exists (ObjectiveEvaluated point :: evs). split.
      * rewrite Hlog, <- app_assoc. reflexivity.
      * constructor; [exact I | exact Hevs].
    + exists [ObjectiveEvaluated point]. split; [reflexivity|].
      repeat constructor.
Qed.

Lemma call_minimize_log (minimize : MinimizeCall.t → solver_run)
    (self : BudgetOptimizer) (call : MinimizeCall.t) (log : list event) :
  ∃ evaluations,
    (call_minimize minimize self call log).2
    = log ++ MinimizeCalled call :: evaluations
    ∧ Forall is_evaluation evaluations.
Proof.
  destruct (drive_log (objective self) (minimize call)
              (log ++ [MinimizeCalled call])) as (evs & Hlog & Hevs).
  exists evs. split; [|exact Hevs].
  change (call_minimize minimize self call log)
    with (drive (objective self) (minimize call) (log ++ [MinimizeCalled call])).
  rewrite Hlog, <- app_assoc. reflexivity.
Qed.

Lemma default_bounds_preserved (total_budget : Q) (channel : string) :
  ∀ (channels : list string) (d : bounds_dict),
    d !! channel = Some (0%Q, total_budget) →
    foldl (λ d channel, <[channel := (0%Q, total_budget)]> d) d channels
      !! channel = Some (0%Q, total_budget).
Proof.
  induction channels as [|c channels IH]; intros d Hd; simpl; [exact Hd|].
  apply IH. destruct (decide (c = channel)) as [->|Hne].
  - apply lookup_insert_eq.
  - rewrite lookup_insert_ne by exact Hne. exact Hd.
Qed.

Lemma default_bounds_lookup (total_budget : Q) (channel : string) :
  ∀ (channels : list string) (d : bounds_dict),
    channel ∈ channels →
    foldl (λ d channel, <[channel := (0%Q, total_budget)]> d) d channels
      !! channel = Some (0%Q, total_budget).
Proof.
  induction channels as [|c channels IH]; intros d Hin.
  - by apply elem_of_nil in Hin.
  - simpl. apply elem_of_cons in Hin as [->|Hin].
    + apply default_bounds_preserved, lookup_insert_eq.
    + by apply IH.
Qed.

Lemma bounds_list_resolved (self : BudgetOptimizer) (total_budget : Q)
    (budget_bounds : optional_dict bounds_dict) (d : bounds_dict) (log log' : list event) :
  resolve_budget_bounds self total_budget budget_bounds log = (Ok d, log') →
  bounds_list self total_budget d
  = resolved_bounds total_budget budget_bounds <$> PyDict.keys (parameters self).
Proof.
  intros Hres. unfold bounds_list. apply Forall_fmap_ext, Forall_forall.
  intros channel Hin.
  destruct budget_bounds as [|d'|o]; simpl in *.
  - injection Hres as <- _.
    rewrite default_bounds_lookup by exact Hin. reflexivity.
  - injection Hres as <- _. by destruct (d' !! channel) as [[lo hi]|].
  - discriminate.
Qed.

(** Everything [resolve_problem] can do, started from the empty log. *)
Lemma resolve_problem_run (self : BudgetOptimizer) (total_budget : Q)
    (budget_bounds : optional_dict bounds_dict)
    (custom_constraints : optional_dict constraint_dict) :
  resolve_problem self total_budget budget_bounds custom_constraints []
  = match budget_bounds with
    | PyOther _ =>
        (Raise (TypeError "`budget_bounds` should be a dictionary."), [])
    | _ =>
        match custom_constraints with
        | PyOther _ =>
            (Raise (TypeError "`custom_constraints` should be a dictionary."),
             expected_warnings budget_bounds custom_constraints)
        | _ =>
            match initial_guess self total_budget with
            | Ok guess =>
                (Ok {| MinimizeCall.x0 := guess;
                       MinimizeCall.bounds :=
                         resolved_bounds total_budget budget_bounds
                           <$> PyDict.keys (parameters self);
                       MinimizeCall.constraints :=
                         resolved_constraints total_budget custom_constraints;
                       MinimizeCall.method := "SLSQP";
                       MinimizeCall.options := solver_options |},
                 expected_warnings budget_bounds custom_constraints)
            | Raise e =>
                (Raise e, expected_warnings budget_bounds custom_constraints)
            end
        end
    end.
Proof.
  destruct budget_bounds as [|d|o]; [| |reflexivity].
  - rewrite <- (bounds_list_resolved self total_budget PyNone _ [] _ eq_refl).
    destruct custom_constraints; reflexivity.
  - rewrite <- (bounds_list_resolved self total_budget (PyDictObj d) _ [] _ eq_refl).
    destruct custom_constraints; reflexivity.
Qed.

Lemma expected_warnings_are_warnings {D1 D2 : Type}
    (budget_bounds : optional_dict D1) (custom_constraints : optional_dict D2) :
  Forall is_warning (expected_warnings budget_bounds custom_constraints).
Proof. destruct budget_bounds, custom_constraints; repeat constructor. Qed.

Lemma resolve_problem_outcome (self : BudgetOptimizer) (total_budget : Q)
    (budget_bounds : optional_dict bounds_dict)
    (custom_constraints : optional_dict constraint_dict)
    (outcome : result MinimizeCall.t) (log : list event) :
  resolve_problem self total_budget budget_bounds custom_constraints []
  = (outcome, log) →
  Forall is_warning log
  ∧ ∀ call, outcome = Ok call →
      log = expected_warnings budget_bounds custom_constraints
      ∧ well_typed budget_bounds ∧ well_typed custom_constraints
      ∧ initial_guess self total_budget = Ok (MinimizeCall.x0 call)
      ∧ MinimizeCall.bounds call
        = resolved_bounds total_budget budget_bounds
            <$> PyDict.keys (parameters self)
      ∧ MinimizeCall.constraints call
        = resolved_constraints total_budget custom_constraints
      ∧ MinimizeCall.method call = "SLSQP"
      ∧ MinimizeCall.options call = solver_options.
Proof.
  rewrite resolve_problem_run.
  pose proof (expected_warnings_are_warnings budget_bounds custom_constraints)
    as Hw.
  destruct budget_bounds as [|d|o], custom_constraints as [|c|o'];
    try (intros [= <- <-]; split; [first [exact Hw | constructor] | intros call [=]]);
    destruct (initial_guess self total_budget) as [g|e];
    intros [= <- <-];
    (split; [exact Hw|]); intros call [= <-]; simpl; repeat split; done.
Qed.

(** ** Type contract of the arguments (C3) *)

(** C3. When [budget_bounds] or [custom_constraints] is neither [None]
    nor a dictionary, [allocate_budget] raises [TypeError]; up to that
    point it has at most emitted warnings: the solver was not called and
    the objective was not evaluated. *)
Theorem non_mapping_argument_raises (minimize : MinimizeCall.t → solver_run)
    (self : BudgetOptimizer) (total_budget : Q)
    (budget_bounds : optional_dict bounds_dict)
    (custom_constraints : optional_dict constraint_dict) :
  non_mapping budget_bounds ∨ non_mapping custom_constraints →
  ∃ msg log,
    allocate_budget minimize self total_budget budget_bounds custom_constraints []
    = (Raise (TypeError msg), log)
    ∧ Forall is_warning log.
Proof.
  intros Hnon.
  rewrite allocate_budget_unfold, resolve_problem_run.
  destruct budget_bounds as [|d|o], custom_constraints as [|c|o'];
    simpl in Hnon; destruct Hnon as [[]|[]];
    eexists _, _; (split; [reflexivity | repeat constructor]).
Qed.

Lemma non_mapping_argument_raises_witness :
  ∃ msg log,
    allocate_budget Example.minimize Example.optimizer 10 PyNone
      (PyOther (PyList [1; 2]%Q)) []
    = (Raise (TypeError msg), log)
    ∧ Forall is_warning log.
Proof.
  apply non_mapping_argument_raises. right. exact I.
Defined.

(** ** Defaults for bounds and constraints (C4) *)

Lemma default_constraints_residual (total_budget : Q) (x : list Q) :
  eq_constraint_residual (default_constraints total_budget) x
  = Some (np_sum x - total_budget)%Q.
Proof. reflexivity. Qed.

(** C4. With at least one channel and arguments that are [None] or
    dictionaries, [allocate_budget] calls the solver once, after exactly
    the warnings for the defaults it used: one for missing bounds, one for
    missing constraints, none otherwise. The bounds passed are, channel by
    channel, the interval of the supplied mapping, or [(0, total_budget)]
    for a channel absent from it or when no mapping was supplied. The
    constraints passed are the supplied dictionary itself, or the equality
    constraint whose residual at [x] is [sum x - total_budget]. *)
Theorem bounds_and_constraints_defaults (minimize : MinimizeCall.t → solver_run)
    (self : BudgetOptimizer) (total_budget : Q)
    (budget_bounds : optional_dict bounds_dict)
    (custom_constraints : optional_dict constraint_dict) :
  (1 ≤ num_channels self)%nat →
  well_typed budget_bounds →
  well_typed custom_constraints →
  ∃ call evaluations,
    (allocate_budget minimize self total_budget budget_bounds
       custom_constraints []).2
    = expected_warnings budget_bounds custom_constraints
        ++ MinimizeCalled call :: evaluations
    ∧ Forall is_evaluation evaluations
    ∧ MinimizeCall.bounds call
      = (λ channel,
           match budget_bounds with
           | PyDictObj d =>
               match d !! channel with
               | Some interval => interval
               | None => (0%Q, total_budget)
               end
           | _ => (0%Q, total_budget)
           end) <$> PyDict.keys (parameters self)
    ∧ MinimizeCall.constraints call
      = match custom_constraints with
        | PyDictObj d => d
        | _ => default_constraints total_budget
        end
    ∧ ∀ x, eq_constraint_residual (default_constraints total_budget) x
           = Some (np_sum x - total_budget)%Q.
Proof.
  intros Hn Hbb Hcc.
  rewrite allocate_budget_unfold, resolve_problem_run.
  assert (∃ guess, initial_guess self total_budget = Ok guess) as [g Hg].
  { unfold initial_guess, num_channels in *.
    destruct (length (PyDict.keys (parameters self))); [lia|].
    eexists. reflexivity. }
  rewrite Hg.
  set (call := {| MinimizeCall.x0 := g;
                  MinimizeCall.bounds :=
                    resolved_bounds total_budget budget_bounds
                      <$> PyDict.keys (parameters self);
                  MinimizeCall.constraints :=
                    resolved_constraints total_budget custom_constraints;
                  MinimizeCall.method := "SLSQP";
                  MinimizeCall.options := solver_options |}).
  destruct (call_minimize_log minimize self call
              (expected_warnings budget_bounds custom_constraints))
    as (evs & Hlog & Hevs).
  exists call, evs.
  split; [|split; [exact Hevs|split; [|split]]].
  - destruct budget_bounds as [|d|o]; [| |contradiction];
      (destruct custom_constraints as [|c|o']; [| |contradiction]);
      (destruct (call_minimize minimize self call _) as [[r|e] log2];
       simpl in Hlog; [rewrite return_result_log|simpl]; exact Hlog).
  - destruct budget_bounds; reflexivity.
  - destruct custom_constraints; reflexivity.
  - intros x. apply default_constraints_residual.
Qed.

Lemma bounds_and_constraints_defaults_witness :
  ∃ call evaluations,
    (allocate_budget Example.minimize Example.optimizer 10
       (PyDictObj Example.tv_bounds) PyNone []).2
    = expected_warnings (PyDictObj Example.tv_bounds)
        (@PyNone constraint_dict)
        ++ MinimizeCalled call :: evaluations
    ∧ Forall is_evaluation evaluations
    ∧ MinimizeCall.bounds call
      = (λ channel,
           match Example.tv_bounds !! channel with
           | Some interval => interval
           | None => (0%Q, 10%Q)
           end) <$> PyDict.keys (parameters Example.optimizer)
    ∧ MinimizeCall.constraints call = default_constraints 10
    ∧ ∀ x, eq_constraint_residual (default_constraints 10) x
           = Some (np_sum x - 10)%Q.
Proof.
  apply (bounds_and_constraints_defaults Example.minimize Example.optimizer 10
           (PyDictObj Example.tv_bounds) PyNone).
  - vm_compute. lia.
  - exact I.
  - exact I.
Defined.

(** ** The log of a call *)

(** A call either stops before the solver, having emitted only warnings,
    or emits its warnings, calls the solver once, and then only records
    evaluations of the objective. *)
Lemma allocate_budget_log (minimize : MinimizeCall.t → solver_run)
    (self : BudgetOptimizer) (total_budget : Q)
    (budget_bounds : optional_dict bounds_dict)
    (custom_constraints : optional_dict constraint_dict) :
  let log := (allocate_budget minimize self total_budget budget_bounds
                custom_constraints []).2 in
  Forall is_warning log
  ∨ ∃ call evaluations,
      resolve_problem self total_budget budget_bounds custom_constraints []
      = (Ok call, expected_warnings budget_bounds custom_constraints)
      ∧ log = expected_warnings budget_bounds custom_constraints
                ++ MinimizeCalled call :: evaluations
      ∧ Forall is_evaluation evaluations.
Proof.
  intros log. subst log. rewrite allocate_budget_unfold.
  destruct (resolve_problem self total_budget budget_bounds custom_constraints [])
    as [[call|e] log1] eqn:Hres.
  - destruct (resolve_problem_outcome _ _ _ _ _ _ Hres) as [_ Hcall].
    destruct (Hcall call eq_refl) as (-> & _).
    destruct (call_minimize_log minimize self call
                (expected_warnings budget_bounds custom_constraints))
      as (evs & Hlog & Hevs).
    right. exists call, evs. split; [reflexivity|]. split; [|exact Hevs].
    destruct (call_minimize minimize self call _) as [[r|e] log2];
      simpl in Hlog; [rewrite return_result_log|simpl]; exact Hlog.
  - left. simpl. by destruct (resolve_problem_outcome _ _ _ _ _ _ Hres).
Qed.

Lemma allocate_budget_log_Forall (P : event → Prop)
    (minimize : MinimizeCall.t → solver_run)
    (self : BudgetOptimizer) (total_budget : Q)
    (budget_bounds : optional_dict bounds_dict)
    (custom_constraints : optional_dict constraint_dict) :
  (∀ msg, P (Warning msg)) →
  (∀ point, P (ObjectiveEvaluated point)) →
  (∀ call log,
     resolve_problem self total_budget budget_bounds custom_constraints []
     = (Ok call, log) → P (MinimizeCalled call)) →
  Forall P (allocate_budget minimize self total_budget budget_bounds
              custom_constraints []).2.
Proof.
  intros HW HE HM.
  assert (∀ l, Forall is_warning l → Forall P l) as HWs.
  { intros l Hl. eapply Forall_impl; [exact Hl|].
    intros [msg|call|point]; simpl; [auto|done..]. }
  assert (∀ l, Forall is_evaluation l → Forall P l) as HEs.
  { intros l Hl. eapply Forall_impl; [exact Hl|].
    intros [msg|call|point]; simpl; [done..|auto]. }
  destruct (allocate_budget_log minimize self total_budget budget_bounds
              custom_constraints) as [Hw | (call & evs & Hres & -> & Hevs)].
  - by apply HWs.
  - apply Forall_app. split.
    + apply HWs, expected_warnings_are_warnings.
    + constructor; [by eapply HM | by apply HEs].
Qed.

(** ** The initial guess (C6) *)

Lemma initial_guess_not_exact_share :
  ∃ call rest,
    (allocate_budget Example.minimize Example.optimizer 5 PyNone PyNone []).2
    = [Warning no_bounds_warning; Warning default_constraint_warning;
       MinimizeCalled call] ++ rest
    ∧ initial_guess Example.optimizer 5 = Ok (MinimizeCall.x0 call)
    ∧ MinimizeCall.x0 call = [2; 2]%Q
    ∧ ¬ Forall (λ share, share == 5 / inject_Z 2)%Q (MinimizeCall.x0 call).
Proof.
  eexists _, _. split; [reflexivity|]. split; [reflexivity|].
  split; [reflexivity|].
  intros Hall. apply Forall_cons in Hall as [Hshare _].
  vm_compute in Hshare. discriminate.
Qed.

(** C6, amended. With [n >= 1] channels the initial guess gives every
    channel the same share, the floor of [total_budget / n]: the largest
    integer not above the exact share, and the value with which every
    call of the solver starts. *)
Theorem initial_guess_floor_share (minimize : MinimizeCall.t → solver_run)
    (self : BudgetOptimizer) (total_budget : Q)
    (budget_bounds : optional_dict bounds_dict)
    (custom_constraints : optional_dict constraint_dict) :
  (1 ≤ num_channels self)%nat →
  let n := num_channels self in
  let exact := (total_budget / inject_Z (Z.of_nat n))%Q in
  let share := inject_Z (Qfloor exact) in
  initial_guess self total_budget = Ok (replicate n share)
  ∧ (share <= exact)%Q ∧ (exact < share + 1)%Q
  ∧ Forall (starts_from (replicate n share))
      (allocate_budget minimize self total_budget budget_bounds
         custom_constraints []).2.
Proof.
  intros Hn n exact share.
  assert (initial_guess self total_budget = Ok (replicate n share)) as Hg.
  { subst share exact n. unfold initial_guess, num_channels in *.
    destruct (length (PyDict.keys (parameters self))); [lia|]. reflexivity. }
  split; [exact Hg|]. split; [apply Qfloor_le|]. split.
  - subst share. change 1%Q with (inject_Z 1).
    rewrite <- inject_Z_plus. apply Qlt_floor.
  - apply allocate_budget_log_Forall; [done..|].
    intros call log Hres. simpl.
    destruct (resolve_problem_outcome _ _ _ _ _ _ Hres) as [_ Hcall].
    destruct (Hcall call eq_refl) as (_ & _ & _ & Hx0 & _).
    congruence.
Qed.

Lemma initial_guess_floor_share_witness :
  initial_guess Example.optimizer 5 = Ok (replicate 2 (inject_Z 2))
  ∧ (inject_Z 2 <= 5 / inject_Z 2)%Q ∧ (5 / inject_Z 2 < inject_Z 2 + 1)%Q
  ∧ Forall (starts_from (replicate 2 (inject_Z 2)))
      (allocate_budget Example.minimize Example.optimizer 5 PyNone PyNone []).2.
Proof.
  apply (initial_guess_floor_share Example.minimize Example.optimizer 5
           PyNone PyNone).
  vm_compute. lia.
Defined.

(** ** Solver options (C7) *)

Lemma allocate_budget_fixed_options (minimize : MinimizeCall.t → solver_run)
    (self : BudgetOptimizer) (total_budget : Q)
    (budget_bounds : optional_dict bounds_dict)
    (custom_constraints : optional_dict constraint_dict) :
  Forall uses_fixed_options
    (allocate_budget minimize self total_budget budget_bounds
       custom_constraints []).2.
Proof.
  apply allocate_budget_log_Forall; [done..|].
  intros call log Hres. simpl.
  destruct (resolve_problem_outcome _ _ _ _ _ _ Hres) as [_ Hcall].
  destruct (Hcall call eq_refl) as (_ & _ & _ & _ & _ & _ & Hm & Ho).
  by split.
Qed.

Lemma solver_options_not_configurable :
  ¬ ∃ (minimize : MinimizeCall.t → solver_run) (self : BudgetOptimizer)
      (total_budget : Q) (budget_bounds : optional_dict bounds_dict)
      (custom_constraints : optional_dict constraint_dict),
      Exists (called_with_maxiter 50)
        (allocate_budget minimize self total_budget budget_bounds
           custom_constraints []).2.
Proof.
  intros (minimize & self & tb & bb & cc & Hex).
  apply Exists_exists in Hex as (e & Hin & Hcalled).
  pose proof (allocate_budget_fixed_options minimize self tb bb cc) as Hfixed.
  rewrite Forall_forall in Hfixed. specialize (Hfixed e Hin).
  destruct e as [msg|call|point]; simpl in *; try contradiction.
  destruct Hfixed as [_ Hopts]. rewrite Hopts in Hcalled.
  vm_compute in Hcalled. discriminate.
Qed.

(** C7, amended. Every call of the solver made by [allocate_budget] uses
    the method SLSQP with the options [ftol = 1e-9] and [maxiter = 1000],
    whatever the arguments of [allocate_budget] are: these two values are
    fixed, not defaults that a caller can replace. *)
Theorem solver_options_fixed (minimize : MinimizeCall.t → solver_run)
    (self : BudgetOptimizer) (total_budget : Q)
    (budget_bounds : optional_dict bounds_dict)
    (custom_constraints : optional_dict constraint_dict) :
  solver_options !! "ftol" = Some (1 # 1000000000)%Q
  ∧ solver_options !! "maxiter" = Some 1000%Q
  ∧ Forall uses_fixed_options
      (allocate_budget minimize self total_budget budget_bounds
         custom_constraints []).2.
Proof.
  split; [reflexivity|]. split; [reflexivity|].
  apply allocate_budget_fixed_options.
Qed.

(** ** Ordered dictionaries *)

Lemma PyDict_set_fresh {V : Type} (d : PyDict.t V) (key : string) (v : V) :
  key ∉ PyDict.keys d → PyDict.set d key v = d ++ [(key, v)].
Proof.
  induction d as [|[k v'] d IH]; intros Hfresh; simpl; [reflexivity|].
  unfold PyDict.keys in *. simpl in Hfresh.
  apply not_elem_of_cons in Hfresh as [Hne Hfresh].
  destruct (decide (k = key)) as [->|_]; [done|].
  by rewrite IH.
Qed.

Lemma PyDict_of_pairs_from {V : Type} (pairs : list (string * V)) :
  ∀ d : PyDict.t V,
    NoDup (d.*1 ++ pairs.*1) →
    foldl (λ d kv, PyDict.set d kv.1 kv.2) d pairs = d ++ pairs.
Proof.
  induction pairs as [|[k v] pairs IH]; intros d Hnd; simpl.
  - by rewrite app_nil_r.
  - simpl in Hnd. rewrite PyDict_set_fresh.
    + rewrite IH.
      * by rewrite <- app_assoc.
      * rewrite fmap_app, <- app_assoc. exact Hnd.
    + apply NoDup_app in Hnd as (_ & Hdisj & _).
      intros Hin. apply (Hdisj k Hin). left.
Qed.

Lemma PyDict_of_pairs_NoDup {V : Type} (pairs : list (string * V)) :
  NoDup pairs.*1 → PyDict.of_pairs pairs = pairs.
Proof.
  intros Hnd. unfold PyDict.of_pairs, PyDict.empty.
  by rewrite PyDict_of_pairs_from.
Qed.

Lemma PyDict_get_Some_lookup {V : Type} (d : PyDict.t V) (key : string) (v : V) :
  PyDict.get d key = Some v → ∃ i, d !! i = Some (key, v).
Proof.
  induction d as [|[k v'] d IH]; simpl; [discriminate|].
  destruct (decide (k = key)) as [->|_].
  - intros [= ->]. by exists 0%nat.
  - intros Hget. destruct (IH Hget) as [i Hi]. by exists (S i).
Qed.

Lemma PyDict_lookup_get {V : Type} (d : PyDict.t V) (i : nat) (key : string)
    (v : V) :
  PyDict.wf d → d !! i = Some (key, v) → PyDict.get d key = Some v.
Proof.
  unfold PyDict.wf, PyDict.keys. revert i.
  induction d as [|[k v'] d IH]; intros i Hnd Hi; [done|].
  simpl in Hnd. apply NoDup_cons in Hnd as [Hk Hnd]. simpl.
  destruct i as [|i]; simpl in Hi.
  - injection Hi as -> ->. by rewrite decide_True.
  - destruct (decide (k = key)) as [->|_].
    + exfalso. apply Hk. apply list_elem_of_fmap.
      exists (key, v). split; [done|]. by eapply list_elem_of_lookup_2.
    + by eapply IH.
Qed.

Lemma zip_keys_take {A B : Type} (l : list A) (k : list B) :
  (zip l k).*1 = take (length k) l.
Proof.
  revert k. induction l as [|a l IH]; intros [|b k]; simpl; try done.
  by rewrite IH.
Qed.

Lemma zip_values_take {A B : Type} (l : list A) (k : list B) :
  (zip l k).*2 = take (length l) k.
Proof.
  revert k. induction l as [|a l IH]; intros [|b k]; simpl; try done.
  by rewrite IH.
Qed.

Lemma NoDup_take {A : Type} (n : nat) (l : list A) : NoDup l → NoDup (take n l).
Proof.
  intros Hnd. rewrite <- (take_drop n l) in Hnd.
  by apply NoDup_app in Hnd as (? & _ & _).
Qed.

(** Under the dict invariant of [self.parameters], decoding is [zip]. *)
Lemma decode_result_zip (self : BudgetOptimizer) (x : list Q) :
  PyDict.wf (parameters self) →
  decode_result self x = zip (PyDict.keys (parameters self)) x.
Proof.
  intros Hwf. unfold decode_result. apply PyDict_of_pairs_NoDup.
  rewrite zip_keys_take. by apply NoDup_take.
Qed.

Lemma initial_guess_length (self : BudgetOptimizer) (total_budget : Q)
    (guess : list Q) :
  initial_guess self total_budget = Ok guess →
  length guess = num_channels self.
Proof.
  unfold initial_guess, num_channels.
  destruct (length (PyDict.keys (parameters self))) as [|n] eqn:Hn;
    simpl; [discriminate|].
  intros [= <-]. simpl. by rewrite length_replicate.
Qed.

(** ** Feasibility of the returned allocation (C2) *)

(** A successful return of [allocate_budget] went through the solver. *)
Lemma allocate_budget_Ok_inv (minimize : MinimizeCall.t → solver_run)
    (self : BudgetOptimizer) (total_budget : Q)
    (budget_bounds : optional_dict bounds_dict)
    (custom_constraints : optional_dict constraint_dict)
    (allocation : PyDict.t Q) (response : Q) (log : list event) :
  allocate_budget minimize self total_budget budget_bounds custom_constraints []
  = (Ok (allocation, response), log) →
  ∃ call r log1,
    resolve_problem self total_budget budget_bounds custom_constraints []
    = (Ok call, log1)
    ∧ call_minimize minimize self call log1 = (Ok r, log)
    ∧ OptimizeResult.success r = true
    ∧ allocation = decode_result self (OptimizeResult.x r)
    ∧ response = (- OptimizeResult.fun_ r)%Q.
Proof.
  rewrite allocate_budget_unfold.
  destruct (resolve_problem self total_budget budget_bounds custom_constraints [])
    as [[call|e] log1] eqn:Hres; [|discriminate].
  destruct (call_minimize minimize self call log1) as [[r|e] log2] eqn:Hrun;
    [|discriminate].
  unfold return_result.
  destruct (OptimizeResult.success r) eqn:Hsucc; [|discriminate].
  intros [= <- <- <-]. by exists call, r, log1.
Qed.

Lemma call_minimize_drive (minimize : MinimizeCall.t → solver_run)
    (self : BudgetOptimizer) (call : MinimizeCall.t) (log : list event) :
  call_minimize minimize self call log
  = drive (objective self) (minimize call) (log ++ [MinimizeCalled call]).
Proof. reflexivity. Qed.

(** C2. Let the solver honour SLSQP's contract with tolerance [tol]: a
    result it reports as successful is feasible for the problem it was
    handed. Then, with the default constraints, whenever
    [allocate_budget] returns an allocation, the allocation has one value
    per channel, its values sum to [total_budget] within [tol], and each
    value lies within the resolved bounds of its channel. *)
Theorem allocation_feasible (minimize : MinimizeCall.t → solver_run)
    (self : BudgetOptimizer) (total_budget tol : Q)
    (budget_bounds : optional_dict bounds_dict)
    (allocation : PyDict.t Q) (response : Q) (log : list event) :
  slsqp_contract tol minimize →
  PyDict.wf (parameters self) →
  allocate_budget minimize self total_budget budget_bounds PyNone []
  = (Ok (allocation, response), log) →
  PyDict.keys allocation = PyDict.keys (parameters self)
  ∧ (Qabs (np_sum (PyDict.values allocation) - total_budget) <= tol)%Q
  ∧ ∀ channel v,
      PyDict.get allocation channel = Some v →
      ((resolved_bounds total_budget budget_bounds channel).1 <= v)%Q
      ∧ (v <= (resolved_bounds total_budget budget_bounds channel).2)%Q.
Proof.
  intros Hcontract Hwf Hret.
  apply allocate_budget_Ok_inv in Hret
    as (call & r & log1 & Hres & Hrun & Hsucc & -> & _).
  rewrite call_minimize_drive in Hrun.
  destruct (Hcontract (objective self) call _ _ r Hrun Hsucc)
    as (Hlen & Hbounds & Hresidual).
  destruct (resolve_problem_outcome _ _ _ _ _ _ Hres) as [_ Hcall].
  destruct (Hcall call eq_refl) as (_ & _ & _ & Hx0 & Hb & Hc & _).
  apply initial_guess_length in Hx0. rewrite Hx0 in Hlen.
  unfold num_channels in Hlen.
  rewrite (decode_result_zip self _ Hwf).
  split; [|split].
  - unfold PyDict.keys at 1. apply fst_zip. lia.
  - unfold PyDict.values. rewrite snd_zip by lia.
    apply Hresidual. rewrite Hc. apply default_constraints_residual.
  - intros channel v Hget.
    apply PyDict_get_Some_lookup in Hget as [i Hi].
    apply lookup_zip_with_Some in Hi as (c & v' & [= <- <-] & Hk & Hv).
    rewrite Hb in Hbounds.
    assert ((resolved_bounds total_budget budget_bounds <$>
               PyDict.keys (parameters self)) !! i
            = Some (resolved_bounds total_budget budget_bounds channel)) as Hbi.
    { by rewrite list_lookup_fmap, Hk. }
    exact (Forall2_lookup_lr _ _ _ _ _ _ Hbounds Hv Hbi).
Qed.

(** The solver of the example honours the contract: it reports success
    only for an initial guess that it has checked to be feasible. *)

Lemma all_in_bounds_within (x : list Q) :
  ∀ bounds, Example.all_in_bounds x bounds = true → within_bounds x bounds.
Proof.
  induction x as [|v x IH]; intros [|b bounds] Hall; simpl in Hall;
    try discriminate; [constructor|].
  apply andb_true_iff in Hall as [Hv Hall].
  unfold Example.in_bounds in Hv. apply andb_true_iff in Hv as [Hlo Hhi].
  apply Qle_bool_iff in Hlo. apply Qle_bool_iff in Hhi.
  constructor; [by split | by apply IH].
Qed.

Lemma example_minimize_contract (tol : Q) :
  (0 <= tol)%Q → slsqp_contract tol Example.minimize.
Proof.
  intros Htol f call log log' r Hrun Hsucc.
  change (drive f (Example.minimize call) log)
    with (match f (MinimizeCall.x0 call) with
          | Ok v =>
              (Ok {| OptimizeResult.x := MinimizeCall.x0 call;
                     OptimizeResult.fun_ := v;
                     OptimizeResult.success := Example.feasible call;
                     OptimizeResult.message :=
                       if Example.feasible call
                       then "Optimization terminated successfully"
                       else "Iteration limit reached" |},
               log ++ [ObjectiveEvaluated (MinimizeCall.x0 call)])
          | Raise e =>
              (Raise e, log ++ [ObjectiveEvaluated (MinimizeCall.x0 call)])
          end) in Hrun.
  destruct (f (MinimizeCall.x0 call)) as [v|e]; [|discriminate].
  injection Hrun as <- _. simpl in *.
  unfold Example.feasible in Hsucc.
  apply andb_true_iff in Hsucc as [Hin Hres].
  split; [reflexivity|]. split; [by apply all_in_bounds_within|].
  intros c Hc. simpl in Hc. rewrite Hc in Hres.
  apply Qeq_bool_iff in Hres. rewrite Hres. exact Htol.
Qed.

Lemma allocation_feasible_witness :
  PyDict.keys [("tv", 5%Q); ("radio", 5%Q)]
  = PyDict.keys (parameters Example.optimizer)
  ∧ (Qabs (np_sum (PyDict.values [("tv", 5%Q); ("radio", 5%Q)]) - 10)
     <= 1 # 1000000000)%Q
  ∧ ∀ channel v,
      PyDict.get [("tv", 5%Q); ("radio", 5%Q)] channel = Some v →
      ((resolved_bounds 10 (PyDictObj Example.tv_bounds) channel).1 <= v)%Q
      ∧ (v <= (resolved_bounds 10 (PyDictObj Example.tv_bounds) channel).2)%Q.
Proof.
  apply (allocation_feasible Example.minimize Example.optimizer 10
           (1 # 1000000000) (PyDictObj Example.tv_bounds)
           [("tv", 5%Q); ("radio", 5%Q)] (54004654080 # 4579835904)
           (allocate_budget Example.minimize Example.optimizer 10
              (PyDictObj Example.tv_bounds) PyNone []).2).
  - apply example_minimize_contract. by_evaluation.
  - by_evaluation.
  - vm_compute. reflexivity.
Defined.

(** ** What the objective reads of its argument *)

Lemma channel_response_ext (self : BudgetOptimizer) (budgets budgets' : list Q)
    (idx : nat) (params : channel_params) :
  budgets !! idx = budgets' !! idx →
  channel_response self budgets idx params
  = channel_response self budgets' idx params.
Proof.
  intros Heq. unfold channel_response, getindex. by rewrite Heq.
Qed.

Lemma channel_response_Ok_index (self : BudgetOptimizer) (budgets : list Q)
    (idx : nat) (params : channel_params) (r : Q) :
  channel_response self budgets idx params = Ok r →
  (idx < length budgets)%nat.
Proof.
  unfold channel_response, getindex.
  destruct (budgets !! idx) as [budget|] eqn:Hb.
  - intros _. by eapply lookup_lt_Some.
  - by destruct (adstock_first self).
Qed.

Lemma objective_loop_ext (self : BudgetOptimizer) (budgets budgets' : list Q) :
  ∀ (items : list (string * channel_params)) (start : nat) (acc : Q),
    (∀ idx, (start ≤ idx < start + length items)%nat →
            budgets !! idx = budgets' !! idx) →
    for_loop (objective_body self budgets) acc (enumerate_from start items)
    = for_loop (objective_body self budgets') acc (enumerate_from start items).
Proof.
  induction items as [|[channel params] items IH]; intros start acc Hsame;
    [reflexivity|].
  simpl in *.
  rewrite (channel_response_ext self budgets budgets' start params)
    by (apply Hsame; lia).
  destruct (channel_response self budgets' start params) as [r|e];
    [|reflexivity].
  simpl. apply IH. intros idx Hidx. apply Hsame. lia.
Qed.

Lemma objective_loop_Ok_indices (self : BudgetOptimizer) (budgets : list Q) :
  ∀ (items : list (string * channel_params)) (start : nat) (acc total : Q),
    for_loop (objective_body self budgets) acc (enumerate_from start items)
    = Ok total →
    ∀ idx, (start ≤ idx < start + length items)%nat →
           (idx < length budgets)%nat.
Proof.
  induction items as [|[channel params] items IH];
    intros start acc total Hrun idx Hidx; simpl in *; [lia|].
  destruct (channel_response self budgets start params) as [r|e] eqn:Hr;
    [|discriminate].
  apply channel_response_Ok_index in Hr. simpl in Hrun.
  destruct (decide (idx = start)) as [->|Hne]; [exact Hr|].
  eapply IH; [exact Hrun | lia].
Qed.

(** [objective] only reads the first [num_channels] entries. *)
Lemma objective_take (self : BudgetOptimizer) (x : list Q) (v : Q) :
  objective self x = Ok v →
  objective self (take (num_channels self) x) = Ok v.
Proof.
  unfold objective, enumerate, PyDict.items. intros Hobj.
  destruct (for_loop (objective_body self x) 0%Q
              (enumerate_from 0 (parameters self))) as [total|e] eqn:Hrun;
    [|discriminate].
  rewrite (objective_loop_ext self (take (num_channels self) x) x), Hrun;
    [exact Hobj|].
  intros idx Hidx. apply lookup_take_lt.
  unfold num_channels, PyDict.keys. rewrite length_fmap. lia.
Qed.

(** ** Outcome of the solver (C5) *)

(** C5. Once the solver has returned [r]: if [r] reports success,
    [allocate_budget] returns the solution vector decoded along the keys
    of [self.parameters], in their order, together with the negation of
    the solver's objective value, and, when that value is the objective
    at the solution up to [tol], evaluating the objective at the values
    of the returned allocation gives the reported response up to [tol];
    if [r] does not report success, [allocate_budget] raises an exception
    whose message ends with the solver's message, and returns nothing. *)
Theorem solver_outcome_returned (minimize : MinimizeCall.t → solver_run)
    (self : BudgetOptimizer) (total_budget : Q)
    (budget_bounds : optional_dict bounds_dict)
    (custom_constraints : optional_dict constraint_dict)
    (call : MinimizeCall.t) (r : OptimizeResult.t) (log1 log2 : list event) :
  PyDict.wf (parameters self) →
  resolve_problem self total_budget budget_bounds custom_constraints []
  = (Ok call, log1) →
  call_minimize minimize self call log1 = (Ok r, log2) →
  (OptimizeResult.success r = true →
   ∃ allocation response,
     allocate_budget minimize self total_budget budget_bounds
       custom_constraints []
     = (Ok (allocation, response), log2)
     ∧ PyDict.items allocation
       = zip (PyDict.keys (parameters self)) (OptimizeResult.x r)
     ∧ response = (- OptimizeResult.fun_ r)%Q
     ∧ ∀ (tol v : Q),
         objective self (OptimizeResult.x r) = Ok v →
         (Qabs (v - OptimizeResult.fun_ r) <= tol)%Q →
         ∃ v', objective self (PyDict.values allocation) = Ok v'
               ∧ (Qabs (- v' - response) <= tol)%Q)
  ∧ (OptimizeResult.success r = false →
     allocate_budget minimize self total_budget budget_bounds
       custom_constraints []
     = (Raise (Exception ("Optimization failed: "
                          +:+ OptimizeResult.message r)), log2)).
Proof.
  intros Hwf Hres Hrun. split; intros Hsucc.
  - exists (decode_result self (OptimizeResult.x r)),
      (- OptimizeResult.fun_ r)%Q.
    split; [|split; [|split]].
    + rewrite allocate_budget_unfold, Hres, Hrun. unfold return_result.
      by rewrite Hsucc.
    + by rewrite decode_result_zip.
    + reflexivity.
    + intros tol v Hobj Htol. exists v. split.
      * rewrite decode_result_zip by exact Hwf.
        unfold PyDict.values. rewrite zip_values_take.
        by apply objective_take.
      * assert (- v - - OptimizeResult.fun_ r
                == - (v - OptimizeResult.fun_ r))%Q as -> by ring.
        by rewrite Qabs_opp.
  - rewrite allocate_budget_unfold, Hres, Hrun. unfold return_result.
    by rewrite Hsucc.
Qed.

Lemma solver_outcome_returned_witness :
  ∃ allocation response,
    allocate_budget Example.minimize Example.optimizer 10 PyNone PyNone []
    = (Ok (allocation, response),
       (allocate_budget Example.minimize Example.optimizer 10 PyNone PyNone
          []).2)
    ∧ PyDict.items allocation
      = zip (PyDict.keys (parameters Example.optimizer)) [5; 5]%Q
    ∧ response = (- - (54004654080 # 4579835904))%Q
    ∧ ∀ (tol v : Q),
        objective Example.optimizer [5; 5]%Q = Ok v →
        (Qabs (v - - (54004654080 # 4579835904)) <= tol)%Q →
        ∃ v', objective Example.optimizer (PyDict.values allocation) = Ok v'
              ∧ (Qabs (- v' - response) <= tol)%Q.
Proof.
  refine (proj1
    (solver_outcome_returned Example.minimize Example.optimizer 10
       PyNone PyNone _
       {| OptimizeResult.x := [5; 5]%Q;
          OptimizeResult.fun_ := (- (54004654080 # 4579835904))%Q;
          OptimizeResult.success := true;
          OptimizeResult.message := "Optimization terminated successfully" |}
       _ _ _ _ _) eq_refl).
  - by_evaluation.
  - reflexivity.
  - vm_compute. reflexivity.
Defined.

(** ** One channel ordering (C8) *)

Lemma enumerate_from_lookup {A : Type} (l : list A) :
  ∀ (start i : nat),
    enumerate_from start l !! i = (λ a, ((start + i)%nat, a)) <$> l !! i.
Proof.
  induction l as [|a l IH]; intros start [|i]; simpl; try reflexivity.
  - by rewrite Nat.add_0_r.
  - rewrite IH. by replace (S start + i)%nat with (start + S i)%nat by lia.
Qed.

Lemma sum_over_fmap {A : Type} (f : A → Q) (l : list A) :
  sum_over id (f <$> l) = sum_over f l.
Proof.
  induction l as [|a l IH]; [reflexivity|].
  unfold sum_over in *. simpl. f_equal. exact IH.
Qed.

Lemma total_response_insert (self : BudgetOptimizer) :
  ∀ (subsets : list (kwargs * kwargs)) (budgets : list Q) (i : nat)
    (p : kwargs * kwargs) (b b' : Q),
    subsets !! i = Some p →
    budgets !! i = Some b →
    (total_response self subsets (<[i := b']> budgets)
     == total_response self subsets budgets
        - channel_total self (p, b) + channel_total self (p, b'))%Q.
Proof.
  unfold total_response.
  induction subsets as [|q subsets IH]; intros [|c budgets] i p b b' Hp Hb;
    try done.
  destruct i as [|i]; simpl in *.
  - injection Hp as ->. injection Hb as ->. ring.
  - rewrite (IH budgets i p b b' Hp Hb). ring.
Qed.

(** Position by position, the channel found by its index among the keys
    and its parameters found under that key are the ones [objective]
    pairs with the spend at that index. *)
Lemma indexed_response_terms (self : BudgetOptimizer) (budgets : list Q)
    (subsets : list (kwargs * kwargs)) :
  PyDict.wf (parameters self) →
  length budgets = num_channels self →
  mapM channel_subsets (PyDict.values (parameters self)) = Some subsets →
  mapM (indexed_response self budgets) (seq 0 (num_channels self))
  = Some (channel_total self <$> zip subsets budgets).
Proof.
  intros Hwf Hlen Hsub. apply mapM_Some in Hsub.
  pose proof (Forall2_length _ _ _ Hsub) as Hlen'.
  unfold PyDict.values in Hlen'. rewrite length_fmap in Hlen'.
  unfold num_channels, PyDict.keys in *. rewrite length_fmap in *.
  apply mapM_Some, Forall2_same_length_lookup_2.
  - rewrite length_seq, length_fmap, length_zip_with. lia.
  - intros i j y Hj Hy.
    apply lookup_seq in Hj as [-> Hi]. simpl.
    apply list_lookup_fmap_Some in Hy as ([p spend] & -> & Hzip).
    apply lookup_zip_with_Some in Hzip as (p' & spend' & [= <- <-] & Hp & Hspend).
    destruct (Forall2_lookup_r _ _ _ _ _ Hsub Hp) as (params & Hparams & Hps).
    unfold PyDict.values in Hparams.
    apply list_lookup_fmap_Some in Hparams as ([channel params'] & -> & Hitem).
    simpl in Hps.
    unfold indexed_response, PyDict.keys.
    rewrite list_lookup_fmap, Hitem. simpl.
    rewrite (PyDict_lookup_get _ i channel params' Hwf Hitem). simpl.
    rewrite Hps. simpl. rewrite Hspend. reflexivity.
Qed.

(** C8. Let [channel] be the [i]-th key of [self.parameters]. For every
    spend vector with one entry per channel, [objective] returns minus the
    sum over the positions of the response of the channel found at that
    position among the keys, computed from the parameters stored under
    that key and the spend at that position; in particular replacing
    [budgets[i]] changes the value by the change of the response of
    [channel] alone. The [i]-th entry of the bounds handed to the solver
    is the interval resolved for [channel]. The [i]-th entry of the
    decoded allocation is [channel] with the [i]-th entry of the solution
    vector, which is also what looking [channel] up returns. *)
Theorem channel_ordering_consistent (self : BudgetOptimizer)
    (i : nat) (channel : string) :
  PyDict.wf (parameters self) →
  PyDict.keys (parameters self) !! i = Some channel →
  (∀ (budgets : list Q) (subsets : list (kwargs * kwargs)),
     length budgets = num_channels self →
     mapM channel_subsets (PyDict.values (parameters self)) = Some subsets →
     ∃ params p spend v terms,
       PyDict.get (parameters self) channel = Some params
       ∧ channel_subsets params = Some p
       ∧ budgets !! i = Some spend
       ∧ indexed_response self budgets i = Some (channel_total self (p, spend))
       ∧ objective self budgets = Ok v
       ∧ mapM (indexed_response self budgets) (seq 0 (num_channels self))
         = Some terms
       ∧ (v == - sum_over id terms)%Q
       ∧ ∀ spend' : Q,
           ∃ v', objective self (<[i := spend']> budgets) = Ok v'
                 ∧ (v' - v == channel_total self (p, spend)
                              - channel_total self (p, spend'))%Q)
  ∧ (∀ total_budget budget_bounds custom_constraints call log,
       resolve_problem self total_budget budget_bounds custom_constraints []
       = (Ok call, log) →
       MinimizeCall.bounds call !! i
       = Some (resolved_bounds total_budget budget_bounds channel))
  ∧ (∀ (x : list Q) (v : Q),
       x !! i = Some v →
       PyDict.items (decode_result self x) !! i = Some (channel, v)
       ∧ PyDict.get (decode_result self x) channel = Some v).
Proof.
  intros Hwf Hkey.
  unfold PyDict.keys in Hkey. rewrite list_lookup_fmap in Hkey.
  destruct (@lookup nat _ (list _) _ i (parameters self))
    as [[c params]|] eqn:Hitem; simpl in Hkey; [|discriminate].
  injection Hkey as ->.
  split; [|split].
  - intros budgets subsets Hlen Hsub.
    pose proof (indexed_response_terms self budgets subsets Hwf Hlen Hsub)
      as Hterms.
    pose proof Hsub as Hall. apply mapM_Some in Hall.
    assert (PyDict.values (parameters self) !! i = Some params) as Hvalue.
    { unfold PyDict.values. by rewrite list_lookup_fmap, Hitem. }
    destruct (Forall2_lookup_l _ _ _ _ _ Hall Hvalue) as (p & Hp & Hps).
    assert (i < length budgets)%nat as Hi.
    { rewrite Hlen. unfold num_channels, PyDict.keys. rewrite length_fmap.
      by eapply lookup_lt_Some. }
    destruct (lookup_lt_is_Some_2 _ _ Hi) as [spend Hspend].
    unfold num_channels, PyDict.keys in Hlen. rewrite length_fmap in Hlen.
    destruct (objective_loop self budgets (parameters self) subsets 0 0%Q Hsub)
      as (total & Hrun & Htot); [by rewrite drop_0|].
    exists params, p, spend, (- total)%Q,
      (channel_total self <$> zip subsets budgets).
    split; [by eapply PyDict_lookup_get|]. split; [exact Hps|].
    split; [exact Hspend|]. split.
    { unfold indexed_response, PyDict.keys.
      rewrite list_lookup_fmap, Hitem. simpl.
      rewrite (PyDict_lookup_get _ i channel params Hwf Hitem). simpl.
      rewrite Hps. simpl. by rewrite Hspend. }
    split.
    { unfold objective, enumerate, PyDict.items. by rewrite Hrun. }
    split; [exact Hterms|]. split.
    { rewrite sum_over_fmap, Htot, drop_0. unfold total_response. ring. }
    intros spend'.
    destruct (objective_loop self (<[i := spend']> budgets) (parameters self)
                subsets 0 0%Q Hsub)
      as (total' & Hrun' & Htot'); [by rewrite drop_0, length_insert|].
    exists (- total')%Q. split.
    { unfold objective, enumerate, PyDict.items. by rewrite Hrun'. }
    rewrite Htot, Htot', !drop_0.
    rewrite (total_response_insert self subsets budgets i p spend spend' Hp Hspend).
    ring.
  - intros total_budget budget_bounds custom_constraints call log Hres.
    destruct (resolve_problem_outcome _ _ _ _ _ _ Hres) as [_ Hcall].
    destruct (Hcall call eq_refl) as (_ & _ & _ & _ & -> & _).
    unfold PyDict.keys. by rewrite !list_lookup_fmap, Hitem.
  - intros x v Hv.
    assert (zip (PyDict.keys (parameters self)) x !! i = Some (channel, v))
      as Hzip.
    { apply lookup_zip_with_Some. exists channel, v.
      split; [done|]. split; [|done].
      unfold PyDict.keys. by rewrite list_lookup_fmap, Hitem. }
    rewrite decode_result_zip by exact Hwf. split; [exact Hzip|].
    apply (PyDict_lookup_get _ i); [|exact Hzip].
    unfold PyDict.wf, PyDict.keys. rewrite zip_keys_take.
    by apply NoDup_take.
Qed.

Lemma channel_ordering_consistent_witness :
  (∀ (budgets : list Q) (subsets : list (kwargs * kwargs)),
     length budgets = num_channels Example.optimizer →
     mapM channel_subsets (PyDict.values (parameters Example.optimizer))
     = Some subsets →
     ∃ params p spend v terms,
       PyDict.get (parameters Example.optimizer) "radio" = Some params
       ∧ channel_subsets params = Some p
       ∧ budgets !! 1%nat = Some spend
       ∧ indexed_response Example.optimizer budgets 1
         = Some (channel_total Example.optimizer (p, spend))
       ∧ objective Example.optimizer budgets = Ok v
       ∧ mapM (indexed_response Example.optimizer budgets)
           (seq 0 (num_channels Example.optimizer))
         = Some terms
       ∧ (v == - sum_over id terms)%Q
       ∧ ∀ spend' : Q,
           ∃ v', objective Example.optimizer (<[1%nat := spend']> budgets)
                 = Ok v'
                 ∧ (v' - v == channel_total Example.optimizer (p, spend)
                              - channel_total Example.optimizer (p, spend'))%Q)
  ∧ (∀ total_budget budget_bounds custom_constraints call log,
       resolve_problem Example.optimizer total_budget budget_bounds
         custom_constraints []
       = (Ok call, log) →
       MinimizeCall.bounds call !! 1%nat
       = Some (resolved_bounds total_budget budget_bounds "radio"))
  ∧ (∀ (x : list Q) (v : Q),
       x !! 1%nat = Some v →
       PyDict.items (decode_result Example.optimizer x) !! 1%nat
       = Some ("radio", v)
       ∧ PyDict.get (decode_result Example.optimizer x) "radio" = Some v).
Proof.
  apply (channel_ordering_consistent Example.optimizer 1 "radio").
  - by_evaluation.
  - reflexivity.
Defined.

(** ** Zero spend (C9) *)

Lemma all_zero_np_sum (a : list Q) : all_zero a → (np_sum a == 0)%Q.
Proof.
  induction 1 as [|v a Hv _ IH]; simpl; [reflexivity|].
  rewrite Hv, IH. ring.
Qed.

Lemma all_zero_series_eq (a b : list Q) :
  series_eq a b → all_zero b → all_zero a.
Proof.
  induction 1 as [|v w a b Hvw _ IH]; intros Hb; [constructor|].
  apply Forall_cons in Hb as [Hw Hb].
  constructor; [by rewrite Hvw | by apply IH].
Qed.

Lemma all_zero_scale_self (a : list Q) :
  all_zero a → series_eq a (Qmult 0 <$> a).
Proof.
  induction 1 as [|v a Hv _ IH]; simpl; constructor; [|exact IH].
  rewrite Hv. ring.
Qed.

Lemma all_zero_scale_zero (a : list Q) : all_zero (Qmult 0 <$> a).
Proof.
  induction a as [|v a IH]; simpl; constructor; [ring | exact IH].
Qed.

(** A linear transform maps a zero series to a zero series. *)
Lemma linear_zero (f : list Q → list Q) (a : list Q) :
  linear f → all_zero a → all_zero (f a).
Proof.
  intros Hlin Ha.
  apply (all_zero_series_eq _ (Qmult 0 <$> f a)); [|apply all_zero_scale_zero].
  unfold series_eq. etransitivity.
  - apply (linear_proper f Hlin), all_zero_scale_self, Ha.
  - apply (linear_scale f Hlin).
Qed.

Lemma all_zero_replicate (n : nat) (v : Q) :
  (v == 0)%Q → all_zero (replicate n v).
Proof. intros Hv. induction n; simpl; constructor; done. Qed.

Lemma constant_series_zero (self : BudgetOptimizer) (spend : Q) :
  (spend == 0)%Q → all_zero (constant_series self spend).
Proof.
  intros Hs. unfold constant_series, all_zero. apply Forall_app. split.
  - by apply all_zero_replicate.
  - by apply all_zero_replicate.
Qed.

Lemma channel_total_zero (self : BudgetOptimizer) (a s : kwargs) (spend : Q) :
  (∀ kw, origin_pass_through (λ series, function (saturation self) series kw)) →
  (∀ kw, linear (λ series, function (adstock self) series kw)) →
  (spend == 0)%Q →
  (channel_total self ((a, s), spend) == 0)%Q.
Proof.
  intros Hsat Hads Hs.
  pose proof (constant_series_zero self spend Hs) as Hzero.
  unfold channel_total, TransformationPipeline. simpl.
  change (sum_over id) with np_sum. apply all_zero_np_sum.
  destruct (adstock_first self).
  - apply (Hsat s). by apply (linear_zero _ _ (Hads a)).
  - apply (linear_zero _ _ (Hads a)). by apply (Hsat s).
Qed.

Lemma sum_over_zero {A : Type} (f : A → Q) (l : list A) :
  Forall (λ a, f a == 0)%Q l → (sum_over f l == 0)%Q.
Proof.
  induction 1 as [|a l Ha _ IH]; simpl; [reflexivity|].
  rewrite Ha, IH. ring.
Qed.

(** C9. Let the saturation map zero series to zero series and the
    adstock be linear. Then an iteration of the loop of [objective] whose
    spend is [0] adds [0] to the total response, and [objective] at the
    all-zero spend vector is [0]. *)
Theorem zero_spend_contributes_zero (self : BudgetOptimizer) :
  (∀ kw, origin_pass_through (λ series, function (saturation self) series kw)) →
  (∀ kw, linear (λ series, function (adstock self) series kw)) →
  (∀ (budgets : list Q) (idx : nat) (params : channel_params)
     (subsets : kwargs * kwargs) (spend : Q),
     budgets !! idx = Some spend →
     (spend == 0)%Q →
     channel_subsets params = Some subsets →
     ∃ r, channel_response self budgets idx params = Ok r ∧ (r == 0)%Q)
  ∧ (∀ subsets,
       mapM channel_subsets (PyDict.values (parameters self)) = Some subsets →
       ∃ v, objective self (replicate (num_channels self) 0%Q) = Ok v
            ∧ (v == 0)%Q).
Proof.
  intros Hsat Hads. split.
  - intros budgets idx params [a s] spend Hidx Hs Hsub.
    exists (channel_total self ((a, s), spend)). split.
    + apply channel_response_total; [|exact Hsub].
      unfold getindex. by rewrite Hidx.
    + by apply channel_total_zero.
  - intros subsets Hsub.
    destruct (objective_loop self (replicate (num_channels self) 0%Q)
                (parameters self) subsets 0 0%Q Hsub)
      as (total & Hrun & Htot).
    { rewrite drop_0, length_replicate.
      unfold num_channels, PyDict.keys. apply length_fmap. }
    exists (- total)%Q. split.
    + unfold objective, enumerate, PyDict.items. by rewrite Hrun.
    + rewrite Htot, drop_0. unfold total_response.
      rewrite sum_over_zero; [ring|].
      apply Forall_forall. intros [[a s] spend] Hin.
      apply channel_total_zero; [done..|].
      apply elem_of_zip_r, elem_of_replicate in Hin as [-> _]. reflexivity.
Qed.

(** The transforms of the example satisfy the two hypotheses. *)

Lemma carry_over_proper (alpha : Q) (a b : list Q) :
  series_eq a b →
  ∀ p q, (p == q)%Q →
         series_eq (Example.carry_over alpha p a) (Example.carry_over alpha q b).
Proof.
  induction 1 as [|v w a b Hvw _ IH]; intros p q Hpq; simpl; constructor.
  - by rewrite Hvw, Hpq.
  - by apply IH.
Qed.

Lemma carry_over_add (alpha : Q) (a : list Q) :
  ∀ (b : list Q) (p q r : Q),
    length a = length b → (r == p + q)%Q →
    series_eq (Example.carry_over alpha r (zip_with Qplus a b))
      (zip_with Qplus (Example.carry_over alpha p a)
         (Example.carry_over alpha q b)).
Proof.
  induction a as [|v a IH]; intros [|w b] p q r Hlen Hr; simpl;
    try discriminate; constructor.
  - rewrite Hr. ring.
  - apply IH; [by injection Hlen | reflexivity].
Qed.

Lemma carry_over_scale (alpha c : Q) (a : list Q) :
  ∀ p r : Q,
    (r == c * p)%Q →
    series_eq (Example.carry_over alpha r (Qmult c <$> a))
      (Qmult c <$> Example.carry_over alpha p a).
Proof.
  induction a as [|v a IH]; intros p r Hr; simpl; constructor.
  - rewrite Hr. ring.
  - apply IH. reflexivity.
Qed.

Lemma carry_over_adstock_linear (kw : kwargs) :
  linear (λ series, function Example.carry_over_adstock series kw).
Proof.
  simpl. split.
  - intros a b Hab. by apply carry_over_proper.
  - intros a b Hlen. apply carry_over_add; [exact Hlen | ring].
  - intros c a. apply carry_over_scale. ring.
Qed.

Lemma michaelis_menten_origin (kw : kwargs) :
  origin_pass_through (λ series, function Example.michaelis_menten series kw).
Proof.
  intros a Ha. simpl. unfold all_zero in *. apply Forall_fmap.
  eapply Forall_impl; [exact Ha|]. intros v Hv. simpl.
  rewrite Hv. unfold Qdiv. ring.
Qed.

Lemma zero_spend_contributes_zero_witness :
  (∃ r, channel_response Example.optimizer [0; 3]%Q 0
          (Example.channel (1 # 2) 3 1) = Ok r
        ∧ (r == 0)%Q)
  ∧ (∃ v, objective Example.optimizer [0; 0]%Q = Ok v ∧ (v == 0)%Q).
Proof.
  destruct (zero_spend_contributes_zero Example.optimizer
              michaelis_menten_origin carry_over_adstock_linear)
    as [Hchannel Hobjective].
  split.
  - apply (Hchannel [0; 3]%Q 0%nat (Example.channel (1 # 2) 3 1)
             (({["alpha" := 1 # 2]}, <["lam" := 1%Q]> {["alpha" := 3%Q]})
              : kwargs * kwargs) 0%Q).
    + reflexivity.
    + reflexivity.
    + vm_compute. reflexivity.
  - apply (Hobjective Example.subsets). vm_compute. reflexivity.
Defined.

(** * Further properties of the code *)

(** ** [objective]: what it reads and how it fails *)

(** [objective] reads one spend per channel and nothing beyond: entries
    of the spend vector after the last channel change neither the value
    nor the exception. *)
Theorem objective_ignores_extra_budgets (self : BudgetOptimizer) (x : list Q) :
  objective self (take (num_channels self) x) = objective self x.
Proof.
  unfold objective, enumerate, PyDict.items.
  rewrite (objective_loop_ext self (take (num_channels self) x) x);
    [reflexivity|].
  intros idx Hidx. apply lookup_take_lt.
  unfold num_channels, PyDict.keys. rewrite length_fmap. lia.
Qed.

Lemma channel_response_IndexError (self : BudgetOptimizer) (budgets : list Q)
    (idx : nat) (params : channel_params) :
  budgets !! idx = None →
  channel_response self budgets idx params = Raise IndexError.
Proof.
  intros Hnone. unfold channel_response, getindex. rewrite Hnone.
  by destruct (adstock_first self).
Qed.

Lemma objective_loop_short (self : BudgetOptimizer) (budgets : list Q) :
  ∀ (items : list (string * channel_params)) (subsets : list (kwargs * kwargs))
    (start : nat) (acc : Q),
    mapM channel_subsets items.*2 = Some subsets →
    (length (drop start budgets) < length items)%nat →
    for_loop (objective_body self budgets) acc (enumerate_from start items)
    = Raise IndexError.
Proof.
  induction items as [|[channel params] items IH];
    intros subsets start acc Hsub Hlen; simpl in Hlen; [lia|].
  apply mapM_Some in Hsub. simpl in Hsub.
  inversion Hsub as [|? [a s] ? subsets' Hhd Htl]; subst.
  destruct (drop start budgets) as [|budget rest] eqn:Hd.
  - simpl. rewrite channel_response_IndexError; [reflexivity|].
    apply lookup_ge_None. apply (f_equal length) in Hd.
    rewrite length_drop in Hd. simpl in Hd. lia.
  - destruct (getindex_drop _ _ _ _ Hd) as [Hget Hrest].
    simpl. rewrite (channel_response_total _ _ _ _ a s budget Hget Hhd).
    simpl. eapply IH; [by apply mapM_Some|].
    rewrite Hrest. simpl in Hlen. lia.
Qed.

(** When every channel has its two parameter subsets and the spend
    vector is shorter than the number of channels, [objective] raises
    [IndexError]. *)
Theorem objective_short_budgets_IndexError (self : BudgetOptimizer)
    (budgets : list Q) (subsets : list (kwargs * kwargs)) :
  mapM channel_subsets (PyDict.values (parameters self)) = Some subsets →
  (length budgets < num_channels self)%nat →
  objective self budgets = Raise IndexError.
Proof.
  intros Hsub Hlen. unfold objective, enumerate, PyDict.items.
  rewrite (objective_loop_short self budgets (parameters self) subsets 0 0%Q);
    [reflexivity | exact Hsub |].
  rewrite drop_0. unfold num_channels, PyDict.keys in Hlen.
  by rewrite length_fmap in Hlen.
Qed.

Lemma objective_short_budgets_IndexError_witness :
  objective Example.optimizer [1%Q] = Raise IndexError.
Proof.
  apply (objective_short_budgets_IndexError Example.optimizer [1%Q]
           Example.subsets).
  - vm_compute. reflexivity.
  - vm_compute. lia.
Defined.

Lemma objective_loop_prefix (self : BudgetOptimizer) (budgets : list Q)
    (rest : list (string * channel_params)) :
  ∀ (pre : list (string * channel_params)) (subsets : list (kwargs * kwargs))
    (start : nat) (acc : Q),
    mapM channel_subsets pre.*2 = Some subsets →
    (start + length pre ≤ length budgets)%nat →
    ∃ acc' : Q,
      for_loop (objective_body self budgets) acc
        (enumerate_from start (pre ++ rest))
      = for_loop (objective_body self budgets) acc'
          (enumerate_from (start + length pre) rest).
Proof.
  induction pre as [|[channel params] pre IH];
    intros subsets start acc Hsub Hlen.
  - exists acc. simpl. by rewrite Nat.add_0_r.
  - apply mapM_Some in Hsub. simpl in Hsub.
    inversion Hsub as [|? [a s] ? subsets' Hhd Htl]; subst.
    simpl in Hlen.
    destruct (budgets !! start) as [budget|] eqn:Hb.
    2:{ apply lookup_ge_None in Hb. lia. }
    destruct (IH subsets' (S start)
                (acc + channel_total self ((a, s), budget))%Q)
      as [acc' Hrun]; [by apply mapM_Some | lia |].
    exists acc'. simpl.
    rewrite (channel_response_total _ _ _ _ a s budget); [|by unfold getindex; rewrite Hb|exact Hhd].
    simpl. rewrite Hrun. f_equal. f_equal. lia.
Qed.

Lemma channel_response_KeyError (self : BudgetOptimizer) (budgets : list Q)
    (idx : nat) (params : channel_params) (budget : Q) (key : string) :
  budgets !! idx = Some budget →
  first_missing_key self params = Some key →
  channel_response self budgets idx params = Raise (KeyError key).
Proof.
  intros Hb. unfold first_missing_key, channel_response, getindex, getitem,
    contains.
  rewrite Hb.
  destruct (adstock_first self);
    destruct (params !! "adstock_params"), (params !! "saturation_params");
    simpl; intros [= <-]; reflexivity.
Qed.

(** [objective] stops at the first channel that lacks a parameter
    subset: when the channels before it are complete and the spend vector
    reaches it, the call raises [KeyError] for the subset that the
    iteration reads first among the missing ones (the first transform's
    before the second's). *)
Theorem objective_missing_params_KeyError (self : BudgetOptimizer)
    (budgets : list Q) (pre post : list (string * channel_params))
    (channel key : string) (params : channel_params)
    (subsets : list (kwargs * kwargs)) :
  parameters self = pre ++ (channel, params) :: post →
  mapM channel_subsets pre.*2 = Some subsets →
  first_missing_key self params = Some key →
  (length pre < length budgets)%nat →
  objective self budgets = Raise (KeyError key).
Proof.
  intros Hparams Hsub Hkey Hlen.
  unfold objective, enumerate, PyDict.items. rewrite Hparams.
  destruct (objective_loop_prefix self budgets ((channel, params) :: post)
              pre subsets 0 0%Q Hsub) as [acc' ->]; [simpl; lia|].
  destruct (budgets !! length pre) as [budget|] eqn:Hb.
  2:{ apply lookup_ge_None in Hb. lia. }
  simpl. by rewrite (channel_response_KeyError _ _ _ _ budget key Hb Hkey).
Qed.

Lemma objective_missing_params_KeyError_witness :
  objective
    {| adstock := Example.carry_over_adstock;
       saturation := Example.michaelis_menten;
       num_days := 2;
       parameters :=
         [("tv", Example.channel (1 # 2) 3 1);
          ("radio", {["adstock_params" := {["alpha" := 1 # 4]}]})];
       adstock_first := true |} [1; 3]%Q
  = Raise (KeyError "saturation_params").
Proof.
  eapply (objective_missing_params_KeyError _ [1; 3]%Q
            [("tv", Example.channel (1 # 2) 3 1)] [] "radio").
  - reflexivity.
  - vm_compute. reflexivity.
  - vm_compute. reflexivity.
  - vm_compute. lia.
Defined.

(** Channels do not interact in [objective]: with one spend per channel,
    replacing the spend of channel [i] changes the value by exactly the
    change of that channel's own summed response. *)
Theorem objective_channel_independence (self : BudgetOptimizer)
    (budgets : list Q) (subsets : list (kwargs * kwargs)) (i : nat)
    (p : kwargs * kwargs) (b b' : Q) :
  length budgets = num_channels self →
  mapM channel_subsets (PyDict.values (parameters self)) = Some subsets →
  subsets !! i = Some p →
  budgets !! i = Some b →
  ∃ v v' : Q,
    objective self budgets = Ok v
    ∧ objective self (<[i := b']> budgets) = Ok v'
    ∧ (v' - v == channel_total self (p, b) - channel_total self (p, b'))%Q.
Proof.
  intros Hlen Hsub Hp Hb. unfold num_channels, PyDict.keys in Hlen.
  rewrite length_fmap in Hlen.
  destruct (objective_loop self budgets (parameters self) subsets 0 0%Q Hsub)
    as (total & Hrun & Htot); [by rewrite drop_0|].
  destruct (objective_loop self (<[i := b']> budgets) (parameters self)
              subsets 0 0%Q Hsub)
    as (total' & Hrun' & Htot'); [by rewrite drop_0, length_insert|].
  exists (- total)%Q, (- total')%Q.
  unfold objective, enumerate, PyDict.items. rewrite Hrun, Hrun'.
  split; [reflexivity|]. split; [reflexivity|].
  rewrite Htot, Htot', !drop_0.
  rewrite (total_response_insert self subsets budgets i p b b' Hp Hb). ring.
Qed.

Lemma objective_channel_independence_witness :
  ∃ v v' : Q,
    objective Example.optimizer [1; 3]%Q = Ok v
    ∧ objective Example.optimizer (<[1%nat := 7%Q]> [1; 3]%Q) = Ok v'
    ∧ (v' - v
       == channel_total Example.optimizer
            (({["alpha" := 1 # 4]}, <["lam" := 1%Q]> {["alpha" := 2%Q]}), 3)
          - channel_total Example.optimizer
              (({["alpha" := 1 # 4]}, <["lam" := 1%Q]> {["alpha" := 2%Q]}), 7))%Q.
Proof.
  apply (objective_channel_independence Example.optimizer [1; 3]%Q
           Example.subsets 1).
  - reflexivity.
  - vm_compute. reflexivity.
  - reflexivity.
  - reflexivity.
Defined.

Lemma objective_loop_names (self self' : BudgetOptimizer) (budgets : list Q) :
  adstock self' = adstock self → saturation self' = saturation self →
  num_days self' = num_days self → adstock_first self' = adstock_first self →
  ∀ (items items' : list (string * channel_params)) (start : nat) (acc : Q),
    items'.*2 = items.*2 →
    for_loop (objective_body self' budgets) acc (enumerate_from start items')
    = for_loop (objective_body self budgets) acc (enumerate_from start items).
Proof.
  intros Ha Hs Hn Hf.
  assert (∀ idx params, channel_response self' budgets idx params
                        = channel_response self budgets idx params) as Hbody.
  { intros idx params. unfold channel_response. by rewrite Ha, Hs, Hn, Hf. }
  induction items as [|[c params] items IH];
    intros [|[c' params'] items'] start acc Heq; try done.
  simpl in Heq. injection Heq as -> Heq. simpl. rewrite Hbody.
  destruct (channel_response self budgets start params) as [r|e];
    [|reflexivity].
  simpl. by apply IH.
Qed.

(** The channel identifiers play no role in [objective]: renaming the
    channels, with the parameters kept in their order, leaves every value
    and every exception as it was. *)
Theorem objective_ignores_channel_names (self : BudgetOptimizer)
    (names : list string) (budgets : list Q) :
  length names = num_channels self →
  objective (rename_channels self names) budgets = objective self budgets.
Proof.
  intros Hlen. unfold objective, enumerate, PyDict.items.
  rewrite (objective_loop_names self (rename_channels self names) budgets
             eq_refl eq_refl eq_refl eq_refl (parameters self));
    [reflexivity|].
  simpl. apply snd_zip. unfold PyDict.values. rewrite length_fmap.
  unfold num_channels, PyDict.keys in Hlen. rewrite length_fmap in Hlen. lia.
Qed.

Lemma objective_ignores_channel_names_witness :
  objective (rename_channels Example.optimizer ["search"; "print"]) [1; 3]%Q
  = objective Example.optimizer [1; 3]%Q.
Proof.
  apply objective_ignores_channel_names. reflexivity.
Defined.

(** ** [allocate_budget]: edge cases and outcomes *)

(** Without channels, a call whose arguments pass the type checks emits
    the warnings for the defaults it used and then raises
    [ZeroDivisionError] from the initial guess; the solver is not
    called. *)
Theorem no_channels_ZeroDivisionError (minimize : MinimizeCall.t → solver_run)
    (self : BudgetOptimizer) (total_budget : Q)
    (budget_bounds : optional_dict bounds_dict)
    (custom_constraints : optional_dict constraint_dict) :
  parameters self = [] →
  well_typed budget_bounds →
  well_typed custom_constraints →
  allocate_budget minimize self total_budget budget_bounds custom_constraints []
  = (Raise ZeroDivisionError,
     expected_warnings budget_bounds custom_constraints).
Proof.
  intros Hempty Hbb Hcc.
  rewrite allocate_budget_unfold, resolve_problem_run.
  unfold initial_guess. rewrite Hempty. simpl.
  destruct budget_bounds; try contradiction;
    destruct custom_constraints; try contradiction; reflexivity.
Qed.

Lemma no_channels_ZeroDivisionError_witness :
  allocate_budget Example.minimize (rename_channels Example.optimizer [])
    10 PyNone PyNone []
  = (Raise ZeroDivisionError,
     expected_warnings (@PyNone bounds_dict) (@PyNone constraint_dict)).
Proof.
  apply no_channels_ZeroDivisionError.
  - reflexivity.
  - exact I.
  - exact I.
Defined.

(** Every way a call of [allocate_budget] can end. It returns only the
    decoded vector of a result that the solver reported as successful.
    Otherwise it raises: [TypeError] for [budget_bounds], checked first;
    [TypeError] for [custom_constraints]; [ZeroDivisionError] exactly
    when there is no channel; whatever the solver or the objective inside
    it raised, unchanged; or the failure that carries the solver's
    message. *)
Theorem allocate_budget_outcomes (minimize : MinimizeCall.t → solver_run)
    (self : BudgetOptimizer) (total_budget : Q)
    (budget_bounds : optional_dict bounds_dict)
    (custom_constraints : optional_dict constraint_dict) :
  let outcome :=
    (allocate_budget minimize self total_budget budget_bounds
       custom_constraints []).1 in
  (non_mapping budget_bounds
   ∧ outcome = Raise (TypeError "`budget_bounds` should be a dictionary."))
  ∨ (well_typed budget_bounds ∧ non_mapping custom_constraints
     ∧ outcome
       = Raise (TypeError "`custom_constraints` should be a dictionary."))
  ∨ (well_typed budget_bounds ∧ well_typed custom_constraints
     ∧ num_channels self = 0%nat ∧ outcome = Raise ZeroDivisionError)
  ∨ (∃ call log1,
       (1 ≤ num_channels self)%nat
       ∧ resolve_problem self total_budget budget_bounds custom_constraints []
         = (Ok call, log1)
       ∧ ((∃ e, (call_minimize minimize self call log1).1 = Raise e
                ∧ outcome = Raise e)
          ∨ (∃ r, (call_minimize minimize self call log1).1 = Ok r
                  ∧ OptimizeResult.success r = false
                  ∧ outcome
                    = Raise (Exception ("Optimization failed: "
                                        +:+ OptimizeResult.message r)))
          ∨ (∃ r, (call_minimize minimize self call log1).1 = Ok r
                  ∧ OptimizeResult.success r = true
                  ∧ outcome
                    = Ok (decode_result self (OptimizeResult.x r),
                          (- OptimizeResult.fun_ r)%Q)))).
Proof.
  intros outcome. subst outcome.
  rewrite allocate_budget_unfold.
  destruct budget_bounds as [|d|o];
    [| |left; by rewrite resolve_problem_run];
    (right; destruct custom_constraints as [|c|o'];
       [| |left; by rewrite resolve_problem_run]);
    right;
    (match goal with
     | |- context [resolve_problem ?s ?tb ?bb ?cc []] =>
         destruct (resolve_problem s tb bb cc []) as [[call|e] log1] eqn:Hres
     end;
     [right; exists call, log1;
      destruct (resolve_problem_outcome _ _ _ _ _ _ Hres) as [_ Hcall];
      destruct (Hcall call eq_refl) as (_ & _ & _ & Hx0 & _);
      unfold initial_guess, num_channels in *;
      (destruct (length (PyDict.keys (parameters self))); [discriminate|]);
      (split; [lia|]); (split; [reflexivity|]);
      (destruct (call_minimize minimize self call log1) as [[r|e] log2];
         [|left; by exists e]);
      right; unfold return_result;
      destruct (OptimizeResult.success r) eqn:Hs; [right|left]; by exists r
     |left; rewrite resolve_problem_run in Hres;
      unfold initial_guess, num_channels in *;
      (destruct (length (PyDict.keys (parameters self))); [|discriminate]);
      simpl in Hres; injection Hres as <- <-; done]).
Qed.

(** Only the entries of [budget_bounds] for channels matter: two
    mappings that agree on every channel lead to the same run, whatever
    else they hold. *)
Theorem bounds_for_unknown_channels_ignored
    (minimize : MinimizeCall.t → solver_run)
    (self : BudgetOptimizer) (total_budget : Q) (d1 d2 : bounds_dict)
    (custom_constraints : optional_dict constraint_dict) :
  (∀ channel, channel ∈ PyDict.keys (parameters self) →
              d1 !! channel = d2 !! channel) →
  allocate_budget minimize self total_budget (PyDictObj d1)
    custom_constraints []
  = allocate_budget minimize self total_budget (PyDictObj d2)
      custom_constraints [].
Proof.
  intros Hagree. rewrite !allocate_budget_unfold, !resolve_problem_run.
  assert (resolved_bounds total_budget (PyDictObj d1)
            <$> PyDict.keys (parameters self)
          = resolved_bounds total_budget (PyDictObj d2)
              <$> PyDict.keys (parameters self)) as ->; [|reflexivity].
  apply Forall_fmap_ext, Forall_forall. intros channel Hin. simpl.
  by rewrite (Hagree channel Hin).
Qed.

Lemma bounds_for_unknown_channels_ignored_witness :
  allocate_budget Example.minimize Example.optimizer 10
    (PyDictObj Example.tv_bounds) PyNone []
  = allocate_budget Example.minimize Example.optimizer 10
      (PyDictObj (<["cinema" := (1%Q, 2%Q)]> Example.tv_bounds)) PyNone [].
Proof.
  apply bounds_for_unknown_channels_ignored.
  intros channel Hin.
  assert (channel ≠ "cinema") as Hne.
  { intros ->. apply (bool_decide_pack _) in Hin.
    vm_compute in Hin. destruct Hin. }
  by rewrite lookup_insert_ne.
Defined.

(** Passing no bounds is passing an empty mapping, up to the warning:
    both lead to the same problem for the solver, or to the same
    exception, and the log of the former is the log of the latter after
    the warning about default bounds. *)
Theorem no_bounds_is_empty_bounds (self : BudgetOptimizer) (total_budget : Q)
    (custom_constraints : optional_dict constraint_dict) :
  ∃ outcome log,
    resolve_problem self total_budget (PyDictObj ∅) custom_constraints []
    = (outcome, log)
    ∧ resolve_problem self total_budget PyNone custom_constraints []
      = (outcome, Warning no_bounds_warning :: log).
Proof.
  rewrite !resolve_problem_run.
  assert (resolved_bounds total_budget (PyDictObj ∅)
            <$> PyDict.keys (parameters self)
          = resolved_bounds total_budget PyNone
              <$> PyDict.keys (parameters self)) as ->.
  { apply Forall_fmap_ext, Forall_forall. intros channel _. simpl.
    by rewrite lookup_empty. }
  destruct custom_constraints;
    try destruct (initial_guess self total_budget);
    eexists _, _; split; reflexivity.
Qed.

(** The problem handed to the solver is well dimensioned: there is at
    least one channel, and the initial guess and the bounds have one entry
    per channel. *)
Theorem solver_problem_dimensions (self : BudgetOptimizer) (total_budget : Q)
    (budget_bounds : optional_dict bounds_dict)
    (custom_constraints : optional_dict constraint_dict)
    (call : MinimizeCall.t) (log : list event) :
  resolve_problem self total_budget budget_bounds custom_constraints []
  = (Ok call, log) →
  (1 ≤ num_channels self)%nat
  ∧ length (MinimizeCall.x0 call) = num_channels self
  ∧ length (MinimizeCall.bounds call) = num_channels self.
Proof.
  intros Hres.
  destruct (resolve_problem_outcome _ _ _ _ _ _ Hres) as [_ Hcall].
  destruct (Hcall call eq_refl) as (_ & _ & _ & Hx0 & -> & _).
  split; [|split].
  - unfold initial_guess, num_channels in *.
    destruct (length (PyDict.keys (parameters self))); [discriminate|lia].
  - by apply initial_guess_length in Hx0.
  - by rewrite length_fmap.
Qed.

Lemma solver_problem_dimensions_witness :
  (1 ≤ num_channels Example.optimizer)%nat
  ∧ length [5; 5]%Q = num_channels Example.optimizer
  ∧ length [(2, 6); (0, 10)]%Q = num_channels Example.optimizer.
Proof.
  apply (solver_problem_dimensions Example.optimizer 10
           (PyDictObj Example.tv_bounds) PyNone
           {| MinimizeCall.x0 := [5; 5]%Q;
              MinimizeCall.bounds := [(2, 6); (0, 10)]%Q;
              MinimizeCall.constraints := default_constraints 10;
              MinimizeCall.method := "SLSQP";
              MinimizeCall.options := solver_options |}
           [Warning default_constraint_warning]).
  reflexivity.
Defined.

Lemma np_sum_replicate (n : nat) (v : Q) :
  (np_sum (replicate n v) == inject_Z (Z.of_nat n) * v)%Q.
Proof.
  induction n as [|n IH].
  - simpl. ring.
  - rewrite Nat2Z.inj_succ. unfold Z.succ. rewrite inject_Z_plus.
    simpl replicate. simpl np_sum. fold (np_sum (replicate n v)).
    rewrite IH. ring.
Qed.

(** For a non-negative budget and at least one channel, the initial
    guess respects the default bounds [(0, total_budget)] and never
    overshoots the budget: its sum is at most [total_budget] and misses it
    by less than the number of channels. *)
Theorem initial_guess_within_budget (self : BudgetOptimizer) (total_budget : Q) :
  (1 ≤ num_channels self)%nat →
  (0 <= total_budget)%Q →
  ∃ guess,
    initial_guess self total_budget = Ok guess
    ∧ Forall (λ share, 0 <= share ∧ share <= total_budget)%Q guess
    ∧ (np_sum guess <= total_budget)%Q
    ∧ (total_budget - inject_Z (Z.of_nat (num_channels self)) < np_sum guess)%Q.
Proof.
  intros Hn Hb.
  set (n := num_channels self) in *.
  set (N := inject_Z (Z.of_nat n)).
  set (exact := (total_budget / N)%Q).
  set (share := inject_Z (Qfloor exact)).
  assert (1 <= N)%Q as HN.
  { subst N. change 1%Q with (inject_Z 1). rewrite <- Zle_Qle. lia. }
  assert (exact * N == total_budget)%Q as Hexact.
  { subst exact. field. lra. }
  assert (0 <= exact)%Q as Hexact0.
  { subst exact. apply Qle_shift_div_l; lra. }
  assert (share <= exact)%Q as Hle by apply Qfloor_le.
  assert (exact < share + 1)%Q as Hlt.
  { subst share. change 1%Q with (inject_Z 1).
    rewrite <- inject_Z_plus. apply Qlt_floor. }
  assert (0 <= share)%Q as Hshare0.
  { subst share. change 0%Q with (inject_Z 0). rewrite <- Zle_Qle.
    change 0%Z with (Qfloor 0). by apply Qfloor_resp_le. }
  exists (replicate n share). split; [|split; [|split]].
  - subst share exact N n. unfold initial_guess, num_channels in *.
    destruct (length (PyDict.keys (parameters self))); [lia|]. reflexivity.
  - apply Forall_replicate. split; [exact Hshare0|]. nra.
  - rewrite np_sum_replicate. fold N. nra.
  - rewrite np_sum_replicate. fold N. nra.
Qed.

Lemma initial_guess_within_budget_witness :
  ∃ guess,
    initial_guess Example.optimizer 5 = Ok guess
    ∧ Forall (λ share, 0 <= share ∧ share <= 5)%Q guess
    ∧ (np_sum guess <= 5)%Q
    ∧ (5 - inject_Z (Z.of_nat (num_channels Example.optimizer))
       < np_sum guess)%Q.
Proof.
  apply initial_guess_within_budget.
  - vm_compute. lia.
  - by_evaluation.
Defined.

(** [zip(..., strict=False)] truncates: the returned allocation holds
    the first [len(x)] channels, in order, with the first entries of the
    solution vector; channels beyond a shorter vector are left out, and
    entries beyond the last channel are dropped. *)
Theorem decode_result_truncates (self : BudgetOptimizer) (x : list Q) :
  PyDict.wf (parameters self) →
  PyDict.keys (decode_result self x)
  = take (length x) (PyDict.keys (parameters self))
  ∧ PyDict.values (decode_result self x) = take (num_channels self) x.
Proof.
  intros Hwf. rewrite decode_result_zip by exact Hwf.
  unfold PyDict.keys at 1, PyDict.values, num_channels.
  by rewrite zip_keys_take, zip_values_take.
Qed.

Lemma decode_result_truncates_witness :
  PyDict.keys (decode_result Example.optimizer [4%Q])
  = take (length [4%Q]) (PyDict.keys (parameters Example.optimizer))
  ∧ PyDict.values (decode_result Example.optimizer [4%Q])
    = take (num_channels Example.optimizer) [4%Q].
Proof.
  apply decode_result_truncates. by_evaluation.
Defined.

(** One call of [allocate_budget] makes at most one call of the solver:
    its log is some warnings, then either nothing, or one call of the
    solver followed only by evaluations of the objective. *)
Theorem single_solver_call (minimize : MinimizeCall.t → solver_run)
    (self : BudgetOptimizer) (total_budget : Q)
    (budget_bounds : optional_dict bounds_dict)
    (custom_constraints : optional_dict constraint_dict) :
  ∃ warnings rest,
    (allocate_budget minimize self total_budget budget_bounds
       custom_constraints []).2 = warnings ++ rest
    ∧ Forall is_warning warnings
    ∧ (rest = []
       ∨ ∃ call evaluations,
           rest = MinimizeCalled call :: evaluations
           ∧ Forall is_evaluation evaluations).
Proof.
  destruct (allocate_budget_log minimize self total_budget budget_bounds
              custom_constraints) as [Hw | (call & evs & _ & Hlog & Hevs)].
  - eexists _, []. split; [by rewrite app_nil_r|]. split; [exact Hw|by left].
  - eexists _, _. split; [exact Hlog|].
    split; [apply expected_warnings_are_warnings|].
    right. by exists call, evs.
Qed.

(** ** Adstock components: configuration and lookup by name *)

Lemma initialize_model_config_Ok_required (cls : lagging_class)
    (model_config : option config_dict) (config : config_dict) :
  initialize_model_config cls model_config = Ok config →
  Forall (λ key, is_Some (config !! key)) (REQUIRED_KEYS cls).
Proof.
  unfold initialize_model_config.
  destruct model_config as [mc|].
  - destruct (forallb (contains mc) (REQUIRED_KEYS cls)) eqn:Hall; simpl.
    + intros [= <-]. by apply forallb_contains.
    + destruct (_default_lagging_config cls) as [d|e] eqn:Hd; [|discriminate].
      simpl. intros [= <-].
      eapply Forall_impl; [by apply default_config_has_required|].
      intros key Hkey. unfold dict_merge. by apply lookup_union_is_Some; left.
  - apply default_config_has_required.
Qed.

(** [initialize_model_config] is idempotent: a configuration it returned
    is complete, so passing it back returns it unchanged. *)
Theorem initialize_model_config_idempotent (cls : lagging_class)
    (model_config : option config_dict) (config : config_dict) :
  initialize_model_config cls model_config = Ok config →
  initialize_model_config cls (Some config) = Ok config.
Proof.
  intros Hinit. apply initialize_model_config_Ok_required in Hinit.
  apply forallb_contains in Hinit.
  unfold initialize_model_config. by rewrite Hinit.
Qed.

Lemma initialize_model_config_idempotent_witness :
  initialize_model_config WeibullPDFAdstockComponent
    (Some (dict_merge Example.partial_config
             (<["adstock_shape" := beta_1_3]> {["adstock_lambda" := beta_1_3]})))
  = Ok (dict_merge Example.partial_config
          (<["adstock_shape" := beta_1_3]> {["adstock_lambda" := beta_1_3]})).
Proof.
  apply (initialize_model_config_idempotent WeibullPDFAdstockComponent
           (Some Example.partial_config)).
  reflexivity.
Defined.

(** [initialize_model_config] never drops what the caller supplied:
    every key of the supplied configuration is a key of the result, and a
    key outside the default configuration keeps the caller's value. *)
Theorem initialize_model_config_keeps_caller_keys (cls : lagging_class)
    (supplied_config config : config_dict) :
  initialize_model_config cls (Some supplied_config) = Ok config →
  (∀ key, is_Some (supplied_config !! key) → is_Some (config !! key))
  ∧ (∀ defaults key,
       _default_lagging_config cls = Ok defaults →
       defaults !! key = None →
       config !! key = supplied_config !! key).
Proof.
  unfold initialize_model_config.
  destruct (forallb (contains supplied_config) (REQUIRED_KEYS cls)); simpl.
  - intros [= <-]. split; [done|]. done.
  - destruct (_default_lagging_config cls) as [d|e]; [|discriminate].
    simpl. intros [= <-]. unfold dict_merge. split.
    + intros key Hkey. apply lookup_union_is_Some. by right.
    + intros defaults key [= <-] Hnone. by apply lookup_union_r.
Qed.

Lemma initialize_model_config_keeps_caller_keys_witness :
  (∀ key, is_Some (Example.tagged_config !! key) →
          is_Some (dict_merge Example.tagged_config
                     {["adstock_alpha" := beta_1_3]} !! key))
  ∧ (∀ defaults key,
       _default_lagging_config GeometricAdstockComponent = Ok defaults →
       defaults !! key = None →
       dict_merge Example.tagged_config {["adstock_alpha" := beta_1_3]} !! key
       = Example.tagged_config !! key).
Proof.
  apply (initialize_model_config_keeps_caller_keys GeometricAdstockComponent
           Example.tagged_config).
  reflexivity.
Defined.

Lemma lagging_functions_lookup_None (name : string) :
  name ∉ ["geometric"; "weibull_pdf"; "weibull_cdf"] →
  lagging_functions !! name = None.
Proof.
  intros Hnot. rewrite !not_elem_of_cons in Hnot.
  destruct Hnot as (H1 & H2 & H3 & _).
  unfold lagging_functions.
  rewrite !lookup_insert_ne by done. by apply lookup_singleton_ne.
Qed.

(** [_get_lagging_function] knows exactly three names. For each of them
    it returns an instance of an adstock component that carries the
    [max_lagging] and the [model] it was given and a configuration with
    every required key; for any other name it raises [ValueError] with a
    message that quotes the name. *)
Theorem get_lagging_function_by_name (Model : Type) (name : string)
    (max_lag : Z) (mdl : option Model) (config : option config_dict) :
  (name ∈ ["geometric"; "weibull_pdf"; "weibull_cdf"] →
   ∃ f, _get_lagging_function Model name max_lag mdl config = Ok f
        ∧ adstock_component (lagging_cls Model f)
        ∧ max_lagging Model f = max_lag
        ∧ model Model f = mdl
        ∧ initialize_model_config (lagging_cls Model f) config
          = Ok (model_config Model f)
        ∧ Forall (λ key, is_Some (model_config Model f !! key))
            (REQUIRED_KEYS (lagging_cls Model f)))
  ∧ (name ∉ ["geometric"; "weibull_pdf"; "weibull_cdf"] →
     _get_lagging_function Model name max_lag mdl config
     = Raise (ValueError ("Lagging function " +:+ name +:+ " not recognized."))).
Proof.
  split.
  - intros Hin.
    assert (∃ cls, lagging_functions !! name = Some cls ∧ adstock_component cls)
      as (cls & Hcls & Hadstock).
    { rewrite !elem_of_cons in Hin.
      destruct Hin as [-> | [-> | [-> | Hin]]];
        [eexists; split; [reflexivity|]; unfold adstock_component; tauto..|].
      by apply elem_of_nil in Hin. }
    unfold _get_lagging_function, new_lagging_function. rewrite Hcls.
    destruct (adstock_component_has_default cls Hadstock) as [d Hd].
    destruct (initialize_model_config cls config) as [cfg|e] eqn:Hinit.
    + eexists. split; [reflexivity|]. simpl.
      repeat split; try done.
      by eapply initialize_model_config_Ok_required.
    + exfalso. unfold initialize_model_config in Hinit. rewrite Hd in Hinit.
      destruct config as [mc|]; [|discriminate].
      by destruct (forallb (contains mc) (REQUIRED_KEYS cls)).
  - intros Hnot. unfold _get_lagging_function.
    by rewrite lagging_functions_lookup_None.
Qed.

Lemma get_lagging_function_by_name_witness :
  (∃ f, _get_lagging_function unit "weibull_cdf" 4 None None = Ok f
        ∧ adstock_component (lagging_cls unit f)
        ∧ max_lagging unit f = 4%Z
        ∧ model unit f = None
        ∧ initialize_model_config (lagging_cls unit f) None
          = Ok (model_config unit f)
        ∧ Forall (λ key, is_Some (model_config unit f !! key))
            (REQUIRED_KEYS (lagging_cls unit f)))
  ∧ _get_lagging_function unit "hill" 4 None None
    = Raise (ValueError ("Lagging function " +:+ "hill" +:+ " not recognized.")).
Proof.
  split.
  - apply (get_lagging_function_by_name unit "weibull_cdf" 4 None None).
    apply (bool_decide_unpack _). vm_compute. exact I.
  - apply (get_lagging_function_by_name unit "hill" 4 None None).
    apply (bool_decide_unpack _). vm_compute. exact I.
Defined.

(** The three tables of an adstock component name the same variables:
    the keys of its default configuration and the model variables of its
    [variable_mapping] are exactly its [REQUIRED_KEYS]. *)
Theorem adstock_component_tables_agree (cls : lagging_class) :
  adstock_component cls →
  ∃ (defaults : config_dict) (mapping : gmap string string),
    _default_lagging_config cls = Ok defaults
    ∧ variable_mapping cls = Some mapping
    ∧ dom defaults = list_to_set (REQUIRED_KEYS cls)
    ∧ (map_img mapping : gset string) = list_to_set (REQUIRED_KEYS cls).
Proof.
  intros [-> | [-> | ->]]; eexists _, _;
    (split; [reflexivity|]); (split; [reflexivity|]);
    split; vm_compute; reflexivity.
Qed.

Lemma adstock_component_tables_agree_witness :
  ∃ (defaults : config_dict) (mapping : gmap string string),
    _default_lagging_config GeometricAdstockComponent = Ok defaults
    ∧ variable_mapping GeometricAdstockComponent = Some mapping
    ∧ dom defaults = list_to_set (REQUIRED_KEYS GeometricAdstockComponent)
    ∧ (map_img mapping : gset string)
      = list_to_set (REQUIRED_KEYS GeometricAdstockComponent).
Proof.
  apply adstock_component_tables_agree. left. reflexivity.
Defined.
